(** * Forward AI data service: the skill-extraction service layer

    A shallow embedding of [lib/data_service/data_service.py]: the fallback
    table [MOCK_JOB_DESCRIPTIONS] and the methods of [SkillExtractorService]
    ([extract_skills], [_fetch_job_descriptions], [_fetch_from_adzuna],
    [_get_mock_descriptions], [_extract_keywords]).

    Python exceptions are modelled by an error monad; the calls that leave
    the process (the HTTP request and the KeyBERT model) are recorded in a
    trace, so that "the model is not invoked" is a statement about a run.
    Everything the code takes from its environment (the process environment,
    the HTTP response, the HTML stripper, the loaded model) is a field of
    [World]. The [logger] calls do not influence any result and are left
    out. *)

From Stdlib Require Import ZArith QArith Qminmax Lia Lqa Ascii String.
From stdpp Require Import base tactics option list strings gmap pretty.

Local Open Scope string_scope.
Local Open Scope Z_scope.

(** ** Python strings

    A [string] is read as a Python [str] whose characters are the code
    points 0..255; [strip] and [lower] are Python's on that range. *)

(** [str.isspace] of one character. *)
Definition is_space (c : ascii) : bool :=
  let n := N_of_ascii c in
  ((9 <=? n) && (n <=? 13) || (28 <=? n) && (n <=? 32)
   || (n =? 133) || (n =? 160))%N.

(** [str.lower] of one character: A-Z, and the upper-case letters of
    Latin-1 (U+00C0..U+00DE without the multiplication sign U+00D7). *)
Definition lower_char (c : ascii) : ascii :=
  let n := N_of_ascii c in
  if ((65 <=? n) && (n <=? 90)
      || (192 <=? n) && (n <=? 222) && negb (n =? 215))%N
  then ascii_of_N (n + 32) else c.

Fixpoint lower (s : string) : string :=
  match s with
  | EmptyString => EmptyString
  | String c s' => String (lower_char c) (lower s')
  end.

Fixpoint lstrip (s : string) : string :=
  match s with
  | EmptyString => EmptyString
  | String c s' => if is_space c then lstrip s' else s
  end.

Definition is_empty (s : string) : bool :=
  match s with EmptyString => true | String _ _ => false end.

Fixpoint rstrip (s : string) : string :=
  match s with
  | EmptyString => EmptyString
  | String c s' =>
      let r := rstrip s' in
      if is_space c && is_empty r then EmptyString else String c r
  end.

(** [s.strip()] *)
Definition strip (s : string) : string := rstrip (lstrip s).

(** Adjacent string literals, which Python concatenates. *)
Definition lit (pieces : list string) : string := String.concat "" pieces.

(** [sep.join(parts)] *)
Definition join (sep : string) (parts : list string) : string :=
  String.concat sep parts.

(** ** Exceptions and results *)

(** The classes of [Exception] the service can meet. *)
Inductive exn : Type :=
| ImportError
| RequestException
| HTTPError
| JSONDecodeError
| AttributeError
| TypeError
| KeyError
| ValueError
| RuntimeError.

Inductive outcome (A : Type) : Type :=
| Return (a : A)
| Raise (e : exn).
Arguments Return {A} a.
Arguments Raise {A} e.

(** ** Python values, as [response.json()] delivers them *)

#[warnings="-register-all"]
Inductive pyval : Type :=
| PNone
| PBool (b : bool)
| PInt (z : Z)
| PFloat (q : Q)
| PStr (s : string)
| PList (l : list pyval)
| PDict (d : list (string * pyval)).

(** Truth value of an object ([if x], [not x]). *)
Definition truthy (v : pyval) : bool :=
  match v with
  | PNone => false
  | PBool b => b
  | PInt z => negb (z =? 0)%Z
  | PFloat q => negb (Qeq_bool q 0)
  | PStr s => negb (is_empty s)
  | PList l => match l with [] => false | _ => true end
  | PDict d => match d with [] => false | _ => true end
  end.

(** A [dict] is kept as its items; keys are unique in a Python dict, the
    lookup takes the first item of the key. *)
Fixpoint assoc (k : string) (d : list (string * pyval)) : option pyval :=
  match d with
  | [] => None
  | (k', v) :: d' => if String.eqb k k' then Some v else assoc k d'
  end.

(** [obj.get(key, dflt)]: only a dict has the method. *)
Definition py_get (obj : pyval) (key : string) (dflt : pyval) : outcome pyval :=
  match obj with
  | PDict d => Return (default dflt (assoc key d))
  | _ => Raise AttributeError
  end.

Fixpoint chars (s : string) : list pyval :=
  match s with
  | EmptyString => []
  | String c s' => PStr (String c EmptyString) :: chars s'
  end.

(** [for x in obj]: the elements of a list, the keys of a dict, the
    characters of a string; anything else is not iterable. *)
Definition py_iter (obj : pyval) : outcome (list pyval) :=
  match obj with
  | PList l => Return l
  | PDict d => Return (map (fun kv => PStr (fst kv)) d)
  | PStr s => Return (chars s)
  | _ => Raise TypeError
  end.

(** ** The environment of the service *)

(** A [requests.Response]: its status and what [response.json()] gives. *)
Record Response : Type := {
  status_code : Z;
  json : outcome pyval
}.

(** [response.raise_for_status()]: "Raises HTTPError for 4xx/5xx
    responses". *)
Definition raise_for_status (r : Response) : outcome unit :=
  if (400 <=? status_code r) && (status_code r <? 600)
  then Raise HTTPError else Return tt.

(** The keyword arguments of [KeyBERT.extract_keywords]. *)
Record KwArgs : Type := {
  keyphrase_ngram_range : Z * Z;
  stop_words : string;
  top_n : Z;
  use_mmr : bool;
  diversity : Q
}.

(** A loaded KeyBERT model, as the service uses it: one method, which
    returns (keyword, score) pairs or raises. *)
Record KeyBERT : Type := {
  extract_keywords : string -> KwArgs -> outcome (list (string * Q))
}.

Record World : Type := {
  (** [os.environ] *)
  environ : gmap string string;
  (** [import requests], [from bs4 import BeautifulSoup] *)
  import_requests : outcome unit;
  import_bs4 : outcome unit;
  (** [requests.get(url, timeout=t)] *)
  requests_get : string -> Z -> outcome Response;
  (** [BeautifulSoup(raw, "html.parser").get_text(separator=" ", strip=True)] *)
  soup_get_text : pyval -> outcome string;
  (** [from keybert import KeyBERT; KeyBERT(model="all-MiniLM-L6-v2")] *)
  load_keybert : outcome KeyBERT
}.

(** ** Runs: an error monad with a trace of the external calls *)

Inductive Event : Type :=
| HttpGet (url : string) (timeout : Z)
| ModelCall (text : string) (args : KwArgs).

Definition M (A : Type) : Type := list Event -> outcome A * list Event.

Definition ret {A} (a : A) : M A := fun tr => (Return a, tr).

Definition lift {A} (o : outcome A) : M A := fun tr => (o, tr).

Definition bind {A B} (m : M A) (k : A -> M B) : M B :=
  fun tr =>
    match m tr with
    | (Return a, tr') => k a tr'
    | (Raise e, tr') => (Raise e, tr')
    end.

(** [try: body except Exception as e: handler] *)
Definition try_except {A} (body : M A) (handler : exn -> M A) : M A :=
  fun tr =>
    match body tr with
    | (Return a, tr') => (Return a, tr')
    | (Raise e, tr') => handler e tr'
    end.

Definition emit (e : Event) : M unit := fun tr => (Return tt, (tr ++ [e])%list).

Notation "'let!' x ':=' m 'in' k" := (bind m (fun x => k))
  (at level 10, x pattern, m at level 100, k at level 200).

(** [for x in xs: acc = body x acc] *)
Fixpoint for_each {A S} (xs : list A) (body : A -> S -> M S) (acc : S) : M S :=
  match xs with
  | [] => ret acc
  | x :: xs' => let! acc' := body x acc in for_each xs' body acc'
  end.

(** The value a run returns, from an empty trace. *)
Definition result_of {A} (m : M A) : outcome A := fst (m []).

(** The model calls of a trace. *)
Definition is_model_call (e : Event) : bool :=
  match e with ModelCall _ _ => true | HttpGet _ _ => false end.

Definition model_calls (tr : list Event) : list Event :=
  List.filter is_model_call tr.

(** ** Mock data: the fallback table *)

Definition MOCK_JOB_DESCRIPTIONS : gmap string (list string) :=
  list_to_map [
    ("default", [
      lit [ "We are looking for a skilled developer with experience in ";
            "Python, JavaScript, React, Node.js, SQL, Docker, Git, REST APIs, ";
            "Agile methodologies, and CI/CD pipelines. Strong problem-solving ";
            "skills and teamwork required. Experience with cloud platforms ";
            "like AWS or Azure is a plus." ];
      lit [ "The ideal candidate should have proficiency in data structures, ";
            "algorithms, system design, microservices architecture, and ";
            "database management. Knowledge of TypeScript, GraphQL, Redis, ";
            "and Kubernetes is highly desirable." ] ]);
    ("flutter developer", [
      lit [ "We need a Flutter Developer proficient in Dart, Flutter SDK, ";
            "Firebase, Bloc/Cubit state management, REST API integration, ";
            "Git version control, and responsive UI design. Experience with ";
            "provider pattern, clean architecture, and CI/CD for mobile apps." ];
      lit [ "Looking for a mobile developer experienced in Flutter, Dart, ";
            "Firebase Authentication, Cloud Firestore, Push Notifications, ";
            "GetX or Riverpod state management, unit testing, integration ";
            "testing, and publishing to Google Play & App Store." ];
      lit [ "Flutter engineer needed with skills in Dart, Material Design, ";
            "Cupertino widgets, platform channels, Hive/SQLite local storage, ";
            "Dio HTTP client, WebSocket, Git, and Agile development." ] ]);
    ("data scientist", [
      lit [ "Seeking a Data Scientist with expertise in Python, Pandas, ";
            "NumPy, Scikit-learn, TensorFlow, SQL, data visualization ";
            "with Matplotlib and Seaborn, statistical analysis, A/B testing, ";
            "and machine learning model deployment." ];
      lit [ "Data Scientist role requiring knowledge of deep learning, NLP, ";
            "PyTorch, feature engineering, data pipelines, Apache Spark, ";
            "Jupyter notebooks, Git, and cloud ML services (AWS SageMaker)." ] ]);
    ("backend developer", [
      lit [ "Backend Developer needed with experience in Node.js, Express, ";
            "Python, Django, PostgreSQL, MongoDB, Redis, Docker, Kubernetes, ";
            "REST API design, GraphQL, authentication (JWT/OAuth), and ";
            "microservices architecture." ];
      lit [ "We are hiring a backend engineer skilled in Java, Spring Boot, ";
            "SQL databases, message queues (RabbitMQ/Kafka), CI/CD, ";
            "unit testing, system design, and cloud infrastructure (AWS/GCP)." ] ]);
    ("frontend developer", [
      lit [ "Frontend Developer with expertise in React.js, TypeScript, ";
            "HTML5, CSS3, Tailwind CSS, Next.js, Redux, Webpack, responsive ";
            "design, cross-browser compatibility, and accessibility (WCAG)." ];
      lit [ "Looking for a front-end engineer experienced in Vue.js or React, ";
            "JavaScript ES6+, SASS/LESS, component libraries, state management, ";
            "RESTful API consumption, Git, and performance optimization." ] ]);
    ("devops engineer", [
      lit [ "DevOps Engineer with experience in Docker, Kubernetes, Terraform, ";
            "CI/CD (Jenkins/GitHub Actions), AWS/GCP/Azure, Linux, Bash ";
            "scripting, monitoring (Prometheus/Grafana), and Infrastructure ";
            "as Code." ];
      lit [ "Seeking a site reliability engineer skilled in containerization, ";
            "orchestration, networking, security best practices, log ";
            "aggregation (ELK stack), and incident response management." ] ])
  ].

(** [d[key]] on the table: a missing key raises [KeyError]. *)
Definition getitem (d : gmap string (list string)) (key : string)
  : outcome (list string) :=
  match d !! key with
  | Some v => Return v
  | None => Raise KeyError
  end.

(** ** The service *)

Record SkillExtractorService : Type := {
  _kw_model : option KeyBERT
}.

(** [SkillExtractorService.__init__]: the model is loaded once; a failure
    is caught and leaves [None]. *)
Definition __init__ (w : World) : SkillExtractorService :=
  match load_keybert w with
  | Return m => {| _kw_model := Some m |}
  | Raise _ => {| _kw_model := None |}
  end.

(** [_get_mock_descriptions] *)
Definition _get_mock_descriptions (job_title : string) : M (list string) :=
  let key := lower (strip job_title) in
  let! dflt := lift (getitem MOCK_JOB_DESCRIPTIONS "default") in
  let descriptions := default dflt (MOCK_JOB_DESCRIPTIONS !! key) in
  ret descriptions.

(** The URL of the search request (country code: eg). *)
Definition adzuna_url (job_title app_id app_key : string)
    (results_per_page : Z) : string :=
  lit [ "https://api.adzuna.com/v1/api/jobs/eg/search/1";
        "?app_id="; app_id;
        "&app_key="; app_key;
        "&results_per_page="; pretty results_per_page;
        "&what="; job_title;
        "&content-type=application/json" ].

(** The body of the loop over the results of [_fetch_from_adzuna]. *)
Definition clean_job (w : World) (job : pyval) (descriptions : list string)
  : M (list string) :=
  let! raw_description := lift (py_get job "description" (PStr "")) in
  if truthy raw_description then
    let! clean_text := lift (soup_get_text w raw_description) in
    ret (descriptions ++ [clean_text])%list
  else ret descriptions.

(** [_fetch_from_adzuna] *)
Definition _fetch_from_adzuna (w : World) (job_title app_id app_key : string)
    (results_per_page : Z) : M (list string) :=
  let! _ := lift (import_requests w) in
  let! _ := lift (import_bs4 w) in
  let url := adzuna_url job_title app_id app_key results_per_page in
  let! _ := emit (HttpGet url 10) in
  let! response := lift (requests_get w url 10) in
  let! _ := lift (raise_for_status response) in
  let! data := lift (json response) in
  let! results := lift (py_get data "results" (PList [])) in
  if negb (truthy results) then _get_mock_descriptions job_title
  else
    let! jobs := lift (py_iter results) in
    for_each jobs (clean_job w) [].

(** [_fetch_job_descriptions]; [_fetch_from_adzuna] is called with its
    default [results_per_page=10]. *)
Definition _fetch_job_descriptions (w : World) (job_title : string)
  : M (list string) :=
  let adzuna_app_id := environ w !! "ADZUNA_APP_ID" in
  let adzuna_app_key := environ w !! "ADZUNA_APP_KEY" in
  match adzuna_app_id, adzuna_app_key with
  | Some app_id, Some app_key =>
      if is_empty app_id || is_empty app_key
      then _get_mock_descriptions job_title
      else
        try_except
          (_fetch_from_adzuna w job_title app_id app_key 10)
          (fun e => _get_mock_descriptions job_title)
  | _, _ => _get_mock_descriptions job_title
  end.

(** The arguments [_extract_keywords] passes to the model. *)
Definition keybert_args (n : Z) : KwArgs :=
  {| keyphrase_ngram_range := (1, 3);
     stop_words := "english";
     top_n := n;
     use_mmr := true;
     diversity := 1 # 2 |}.

(** [_extract_keywords] *)
Definition _extract_keywords (self : SkillExtractorService) (text : string)
    (n : Z) : M (list string) :=
  match _kw_model self with
  | None => ret []
  | Some kw_model =>
      try_except
        (let! _ := emit (ModelCall text (keybert_args n)) in
         let! keywords_with_scores :=
           lift (extract_keywords kw_model text (keybert_args n)) in
         let skills := map fst keywords_with_scores in
         ret skills)
        (fun e => ret [])
  end.

(** [extract_skills] *)
Definition extract_skills (w : World) (self : SkillExtractorService)
    (job_title : string) (n : Z) : M (list string) :=
  let! descriptions := _fetch_job_descriptions w job_title in
  match descriptions with
  | [] => ret []
  | _ :: _ =>
      let aggregated_text := join " " descriptions in
      let! skills := _extract_keywords self aggregated_text n in
      ret skills
  end.

(** ** Keyphrase extraction, as the specification describes it

    In the program the keyphrases come out of the KeyBERT library, behind
    [extract_keywords]; the library is not part of the sources. The
    definitions of this part follow sections 4.2 to 4.4 of the
    specification. Scores are rationals. *)

(** Modelled from the spec: what the extraction consumes from its
    environment, which the sources do not contain (sections 4.2, 4.3, 6):
    the tokenizer ([segments]: the lower-cased word tokens of a text, one
    list per stretch that spans may not leave), the stop-word list, and the
    embedding model, seen through the cosine similarity of the vectors of
    two texts. *)
Record Embedding : Type := {
  segments : string -> list (list string);
  is_stop_word : string -> bool;
  similarity : string -> string -> Q
}.

(** Modelled from the spec: a ScoredCandidate of section 3, the surface
    form of a candidate with its relevance score (the KeyBERT result pairs
    are absent from the sources). *)
Record Scored : Type := {
  surface : string;
  relevance : Q
}.

(** Modelled from the spec: the contiguous spans of 1, 2 and 3 tokens that
    start at the head of a token list (section 4.2; the candidate generator
    of KeyBERT is absent from the sources). *)
Definition spans_at (l : list string) : list (list string) :=
  omap (fun n => if decide (n <= length l)%nat then Some (take n l) else None)
       [1; 2; 3]%nat.

(** Modelled from the spec: all contiguous spans of 1 to 3 tokens of a
    token list, in the order of their first token (section 4.2; absent from
    the sources). *)
Fixpoint spans (l : list string) : list (list string) :=
  match l with
  | [] => []
  | _ :: l' => (spans_at l ++ spans l')%list
  end.

(** Modelled from the spec: a span is discarded when it consists of stop
    words only (section 4.2; absent from the sources). *)
Definition all_stop (E : Embedding) (span : list string) : bool :=
  forallb (is_stop_word E) span.

(** Modelled from the spec: deduplication by surface form, the first
    occurrence is kept (section 4.2; absent from the sources). *)
Fixpoint dedup (l : list string) : list string :=
  match l with
  | [] => []
  | x :: l' => x :: List.filter (fun y => negb (String.eqb y x)) (dedup l')
  end.

(** Modelled from the spec: the Candidate Generator of section 4.2, whose
    code (inside KeyBERT) is absent from the sources. The distinct surface
    forms of the spans of every segment, in document order. *)
Definition generate (E : Embedding) (text : string) : list string :=
  dedup
    (concat
       (map (fun seg =>
               map (join " ")
                   (List.filter (fun sp => negb (all_stop E sp)) (spans seg)))
            (segments E text))).

(** Modelled from the spec: the Relevance Ranker of section 4.3 (absent
    from the sources): the similarity of candidate and document. *)
Definition score (E : Embedding) (document : string)
    (candidates : list string) : list Scored :=
  map (fun c => {| surface := c; relevance := similarity E c document |})
      candidates.

(** Modelled from the spec: the maximum over the selected candidates of
    their similarity to [c] (section 4.4, step 3a; absent from the
    sources). The selection is never empty where it is used. *)
Definition max_sim (E : Embedding) (selected : list Scored) (c : Scored) : Q :=
  match selected with
  | [] => 0
  | s :: ss =>
      fold_left (fun m s' => Qmax m (similarity E (surface c) (surface s')))
                ss (similarity E (surface c) (surface s))
  end.

(** Modelled from the spec: the MMR score of section 4.4, step 3a (the
    selection code of KeyBERT is absent from the sources):
    [mmr(c) = diversity * relevance(c)
              - (1 - diversity) * max_over(s in Selected) similarity(c, s)]. *)
Definition mmr (E : Embedding) (d : Q) (selected : list Scored) (c : Scored)
  : Q :=
  d * relevance c - (1 - d) * max_sim E selected c.

(** Modelled from the spec: the order in which a candidate replaces the
    best one seen so far (section 4.4, step 3b; absent from the sources): a
    strictly higher first key, or an equal first key and a strictly higher
    second key. Remaining ties stay with the earlier candidate. *)
Definition better (ka kb : Q * Q) : bool :=
  negb (Qle_bool (fst ka) (fst kb))
  || (Qeq_bool (fst ka) (fst kb) && negb (Qle_bool (snd ka) (snd kb))).

(** Modelled from the spec: picking the candidate that maximizes a key and
    removing it from Remaining (section 4.4, steps 2 and 3b; absent from the
    sources). *)
Fixpoint pick_best (key : Scored -> Q * Q) (remaining : list Scored)
  : option (Scored * list Scored) :=
  match remaining with
  | [] => None
  | c :: l =>
      match pick_best key l with
      | None => Some (c, [])
      | Some (b, rest) =>
          if better (key b) (key c) then Some (b, c :: rest) else Some (c, l)
      end
  end.

(** Modelled from the spec: the key of step 2 of section 4.4, the relevance
    score alone (absent from the sources). *)
Definition relevance_key (c : Scored) : Q * Q := (relevance c, 0%Q).

(** Modelled from the spec: the key of step 3b of section 4.4, the MMR
    score, then the raw relevance score (absent from the sources). *)
Definition mmr_key (E : Embedding) (d : Q) (selected : list Scored)
    (c : Scored) : Q * Q :=
  (mmr E d selected c, relevance c).

(** Modelled from the spec: step 3 of section 4.4 (absent from the
    sources), "while |Selected| < top_n and Remaining non-empty". The fuel
    counts the candidates that remain, so it never runs out first. *)
Fixpoint mmr_loop (fuel : nat) (E : Embedding) (n : Z) (d : Q)
    (selected remaining : list Scored) : list Scored :=
  match fuel with
  | O => selected
  | S fuel' =>
      if (Z.of_nat (length selected) <? n)%Z then
        match pick_best (mmr_key E d selected) remaining with
        | None => selected
        | Some (c, rest) => mmr_loop fuel' E n d (selected ++ [c])%list rest
        end
      else selected
  end.

(** Modelled from the spec: the Diversity Selector of section 4.4, steps 1
    to 4, whose code (inside KeyBERT) is absent from the sources. Step 2
    takes the most relevant candidate before [top_n] is looked at. *)
Definition select (E : Embedding) (scored : list Scored) (n : Z) (d : Q)
  : list Scored :=
  match pick_best relevance_key scored with
  | None => []
  | Some (c, rest) => mmr_loop (length rest) E n d [c] rest
  end.

(** Modelled from the spec: what steps 2 and 3b of section 4.4 allow as a
    pick, stated as a relation (the selection code of KeyBERT is absent
    from the sources). Remaining is in document order. The candidate [c]
    maximizes the key: no candidate of Remaining is strictly better; and
    among the candidates that tie with it, it is the first: every candidate
    before it is strictly worse. It is removed from Remaining. *)
Inductive picks (key : Scored -> Q * Q)
  : list Scored -> Scored -> list Scored -> Prop :=
| picks_at pre c post :
    (forall x, x ∈ (pre ++ c :: post)%list -> better (key x) (key c) = false) ->
    (forall x, x ∈ pre -> better (key c) (key x) = true) ->
    picks key (pre ++ c :: post)%list c (pre ++ post)%list.

(** Modelled from the spec: step 3 of section 4.4 as a relation between
    Selected, Remaining and the final selection (absent from the sources):
    the loop ends when Selected has [top_n] entries or Remaining is empty,
    and otherwise appends a pick by the MMR key. *)
Inductive mmr_steps (E : Embedding) (n : Z) (d : Q)
  : list Scored -> list Scored -> list Scored -> Prop :=
| steps_full selected remaining :
    ~ (Z.of_nat (length selected) < n) ->
    mmr_steps E n d selected remaining selected
| steps_empty selected :
    mmr_steps E n d selected [] selected
| steps_pick selected remaining c rest result :
    Z.of_nat (length selected) < n ->
    picks (mmr_key E d selected) remaining c rest ->
    mmr_steps E n d (selected ++ [c])%list rest result ->
    mmr_steps E n d selected remaining result.

(** Modelled from the spec: the selections that steps 1 to 4 of section
    4.4 allow for a list of scored candidates (absent from the sources).
    Step 2 picks by relevance alone; a tie goes to the first occurrence, the
    last resort of step 3b. *)
Inductive selects (E : Embedding) (n : Z) (d : Q)
  : list Scored -> list Scored -> Prop :=
| selects_none : selects E n d [] []
| selects_first scored c rest result :
    picks relevance_key scored c rest ->
    mmr_steps E n d [c] rest result ->
    selects E n d scored result.

(** Modelled from the spec: the model behind [extract_keywords] (KeyBERT,
    absent from the sources) as sections 4.2 to 4.4 describe it: generate,
    rank, select, and return the selected surface forms with their scores,
    in selection order. It never raises. *)
Definition spec_keybert (E : Embedding) : KeyBERT :=
  {| extract_keywords := fun text args =>
       Return
         (map (fun c => (surface c, relevance c))
              (select E (score E text (generate E text))
                      (top_n args) (diversity args))) |}.

(** ** Notions used in the statements *)

(** The credentials [_fetch_job_descriptions] finds: both variables set and
    non-empty. *)
Definition credentials (w : World) : option (string * string) :=
  match environ w !! "ADZUNA_APP_ID", environ w !! "ADZUNA_APP_KEY" with
  | Some app_id, Some app_key =>
      if is_empty app_id || is_empty app_key then None
      else Some (app_id, app_key)
  | _, _ => None
  end.

(** The table entry [_get_mock_descriptions] selects for a title. *)
Definition mock_entry (job_title : string) : list string :=
  match MOCK_JOB_DESCRIPTIONS !! lower (strip job_title) with
  | Some descriptions => descriptions
  | None => default [] (MOCK_JOB_DESCRIPTIONS !! "default")
  end.

(** The raw [description] field of a result, and whether the loop of
    [_fetch_from_adzuna] keeps the result. *)
Definition raw_description (job : pyval) : pyval :=
  match py_get job "description" (PStr "") with
  | Return raw => raw
  | Raise _ => PNone
  end.

Definition has_description (job : pyval) : bool :=
  truthy (raw_description job).

Definition is_dict (v : pyval) : Prop :=
  match v with PDict _ => True | _ => False end.

(** What the loop of [_fetch_from_adzuna] computes from the results: the
    stripped texts of the results that have a description, appended to
    [acc]; the first exception ends it. *)
Fixpoint cleaned (w : World) (jobs : list pyval) (acc : list string)
  : outcome (list string) :=
  match jobs with
  | [] => Return acc
  | job :: jobs' =>
      match py_get job "description" (PStr "") with
      | Raise e => Raise e
      | Return raw =>
          if truthy raw then
            match soup_get_text w raw with
            | Raise e => Raise e
            | Return clean_text => cleaned w jobs' (acc ++ [clean_text])%list
            end
          else cleaned w jobs' acc
      end
  end.

(** The ways the primary source fails. *)
Definition request_exception (w : World) (job_title : string) : Prop :=
  exists app_id app_key e,
    credentials w = Some (app_id, app_key) /\
    requests_get w (adzuna_url job_title app_id app_key 10) 10 = Raise e.

Definition error_status (w : World) (job_title : string) : Prop :=
  exists app_id app_key r,
    credentials w = Some (app_id, app_key) /\
    requests_get w (adzuna_url job_title app_id app_key 10) 10 = Return r /\
    400 <= status_code r < 600.

Definition zero_results (w : World) (job_title : string) : Prop :=
  exists app_id app_key r data results,
    credentials w = Some (app_id, app_key) /\
    requests_get w (adzuna_url job_title app_id app_key 10) 10 = Return r /\
    json r = Return data /\
    py_get data "results" (PList []) = Return results /\
    truthy results = false.

(** The primary source answers with a non-empty list of results, [jobs]. *)
Definition live_results (w : World) (job_title : string) (jobs : list pyval)
  : Prop :=
  exists app_id app_key r data,
    credentials w = Some (app_id, app_key) /\
    import_requests w = Return tt /\ import_bs4 w = Return tt /\
    requests_get w (adzuna_url job_title app_id app_key 10) 10 = Return r /\
    raise_for_status r = Return tt /\
    json r = Return data /\
    py_get data "results" (PList []) = Return (PList jobs) /\
    jobs <> [].

(** ** Concrete environments *)

(** A stripper for descriptions without markup: the text itself. *)
Definition plain_text (raw : pyval) : outcome string :=
  match raw with
  | PStr s => Return s
  | _ => Raise TypeError
  end.

(** No credentials in the environment, no network, no model. *)
Definition offline_world : World :=
  {| environ := ∅;
     import_requests := Return tt;
     import_bs4 := Return tt;
     requests_get := fun _ _ => Raise RequestException;
     soup_get_text := plain_text;
     load_keybert := Raise ImportError |}.

(** Credentials are set and every request is answered by [r]. *)
Definition live_world (r : outcome Response) : World :=
  {| environ := <["ADZUNA_APP_ID" := "id"]> (<["ADZUNA_APP_KEY" := "key"]> ∅);
     import_requests := Return tt;
     import_bs4 := Return tt;
     requests_get := fun _ _ => r;
     soup_get_text := plain_text;
     load_keybert := Raise ImportError |}.

Definition job_with (description : string) : pyval :=
  PDict [("title", PStr "Flutter Developer"); ("description", PStr description)].

(** A result without a description field. *)
Definition blank_job : pyval := PDict [("title", PStr "Flutter Developer")].

Definition response_with (status : Z) (jobs : list pyval) : outcome Response :=
  Return {| status_code := status;
            json := Return (PDict [("count", PInt (Z.of_nat (length jobs)));
                                   ("results", PList jobs)]) |}.

(** The API answers 300 (Multiple Choices) with one result. *)
Definition status_300_world : World :=
  live_world (response_with 300 [job_with "Remote Flutter role"]).

(** The API answers 200 with one result that has no description. *)
Definition blank_world : World := live_world (response_with 200 [blank_job]).

(** The API answers 200 with eleven results. *)
Definition eleven_jobs : list pyval :=
  map job_with ["a"; "b"; "c"; "d"; "e"; "f"; "g"; "h"; "i"; "j"; "k"].

Definition eleven_world : World := live_world (response_with 200 eleven_jobs).

(** A small embedding: stretches end at a full stop, tokens are the runs of
    letters and digits of the lower-cased text, a handful of stop words, and
    the overlap of the letter sets of two texts as their similarity. *)
Definition is_alnum (c : ascii) : bool :=
  let n := N_of_ascii c in
  ((48 <=? n) && (n <=? 57) || (97 <=? n) && (n <=? 122))%N.

Fixpoint tokens_go (s : string) (word : string) (seg : list string)
  : list (list string) :=
  let flush seg := if is_empty word then seg else (seg ++ [word])%list in
  match s with
  | EmptyString => match flush seg with [] => [] | seg' => [seg'] end
  | String c s' =>
      if is_alnum c then tokens_go s' (word +:+ String c EmptyString) seg
      else if Ascii.eqb c "."%char then
        match flush seg with
        | [] => tokens_go s' EmptyString []
        | seg' => seg' :: tokens_go s' EmptyString []
        end
      else tokens_go s' EmptyString (flush seg)
  end.

Definition toy_segments (text : string) : list (list string) :=
  tokens_go (lower text) EmptyString [].

Definition toy_stop_word (t : string) : bool :=
  bool_decide (t ∈ ["a"; "an"; "and"; "the"; "of"; "in"; "to"; "for";
                    "with"; "or"; "is"; "we"]).

(** The set of the letters a-z of a text, as a bit mask. *)
Fixpoint letters (s : string) : N :=
  match s with
  | EmptyString => 0%N
  | String c s' =>
      let n := N_of_ascii c in
      if ((97 <=? n) && (n <=? 122))%N
      then N.lor (N.shiftl 1 (n - 97)) (letters s')
      else letters s'
  end.

Definition count_bits (m : N) : nat :=
  length (List.filter (N.testbit m) (map N.of_nat (seq 0 26))).

Definition toy_similarity (a b : string) : Q :=
  let la := letters (lower a) in
  let lb := letters (lower b) in
  Z.of_nat (count_bits (N.land la lb))
  # Pos.of_nat (count_bits (N.lor la lb)).

Definition toy_embedding : Embedding :=
  {| segments := toy_segments;
     is_stop_word := toy_stop_word;
     similarity := toy_similarity |}.

(** Three scored candidates. *)
Definition cand_flutter : Scored := {| surface := "flutter"; relevance := 7 # 13 |}.
Definition cand_dart : Scored := {| surface := "dart"; relevance := 4 # 13 |}.
Definition cand_firebase : Scored :=
  {| surface := "firebase"; relevance := 6 # 13 |}.

(** A service whose model is the one of the specification, over the small
    embedding. *)
Definition toy_service : SkillExtractorService :=
  {| _kw_model := Some (spec_keybert toy_embedding) |}.

(** ** The application layer: the singleton accessor and the route *)

(** A Flask request, as [extract_skills_route] reads it: [request.is_json]
    and what [request.get_json()] gives. *)
Record Request : Type := {
  is_json : bool;
  get_json : outcome pyval
}.

(** [value.strip()]: only a [str] has the method. *)
Definition py_strip (v : pyval) : outcome string :=
  match v with
  | PStr s => Return (strip s)
  | _ => Raise AttributeError
  end.

(** [get_skill_service]: the module-level [skill_service] goes in and comes
    out; the service is constructed when it is [None]. *)
Definition get_skill_service (w : World)
    (skill_service : option SkillExtractorService)
  : SkillExtractorService * option SkillExtractorService :=
  match skill_service with
  | None => let service := __init__ w in (service, Some service)
  | Some service => (service, Some service)
  end.

(** The body of the two error answers of the route. *)
Definition error_body (message : string) : pyval :=
  PDict [("success", PBool false); ("error", PStr message)].

(** The body of the answer of the route to an accepted request. *)
Definition skills_body (job_title : string) (skills : list string) : pyval :=
  PDict [("success", PBool true);
         ("job_title", PStr job_title);
         ("skills", PList (map PStr skills));
         ("count", PInt (Z.of_nat (length skills)))].

(** [extract_skills_route]: the answer (body and status) or the exception
    that leaves the handler, the module-level [skill_service] afterwards,
    and the trace. *)
Definition extract_skills_route (w : World) (request : Request)
    (skill_service : option SkillExtractorService) (tr : list Event)
  : outcome (pyval * Z) * option SkillExtractorService * list Event :=
  if negb (is_json request) then
    (Return (error_body
               "Request must be JSON. Set Content-Type: application/json.",
             400), skill_service, tr)
  else
    match get_json request with
    | Raise e => (Raise e, skill_service, tr)
    | Return data =>
        match py_get data "job_title" (PStr "") with
        | Raise e => (Raise e, skill_service, tr)
        | Return value =>
            match py_strip value with
            | Raise e => (Raise e, skill_service, tr)
            | Return job_title =>
                if is_empty job_title then
                  (Return (error_body "Missing 'job_title' in request body.",
                           400), skill_service, tr)
                else
                  let (service, skill_service') :=
                    get_skill_service w skill_service in
                  match extract_skills w service job_title 10 tr with
                  | (Raise e, tr') => (Raise e, skill_service', tr')
                  | (Return skills, tr') =>
                      (Return (skills_body job_title skills, 200),
                       skill_service', tr')
                  end
            end
        end
    end.

(** A string of whitespace only. *)
Fixpoint all_space (s : string) : bool :=
  match s with
  | EmptyString => true
  | String c s' => is_space c && all_space s'
  end.

(** A request the route accepts for [title]: a JSON object whose
    [job_title] is a string that is not blank. *)
Definition accepted (request : Request) (title : string) : Prop :=
  is_json request = true /\
  exists data,
    get_json request = Return (PDict data) /\
    assoc "job_title" data = Some (PStr title) /\
    all_space title = false.

(** Requests: a JSON object with the given [job_title]. *)
Definition request_for (title : pyval) : Request :=
  {| is_json := true; get_json := Return (PDict [("job_title", title)]) |}.

(** Credentials are set, the API answers 200 with a result that is not an
    object between two well-formed ones. *)
Definition mixed_world : World :=
  live_world (response_with 200 [job_with "Dart"; PStr "n/a"; job_with "Git"]).

(** The model can be loaded: it is the one of the specification over the
    small embedding. *)
Definition loaded_world : World :=
  {| environ := ∅;
     import_requests := Return tt;
     import_bs4 := Return tt;
     requests_get := fun _ _ => Raise RequestException;
     soup_get_text := plain_text;
     load_keybert := Return (spec_keybert toy_embedding) |}.

(** * Properties *)

(** ** The fallback table *)

Lemma mock_default :
  exists d1 d2, MOCK_JOB_DESCRIPTIONS !! "default" = Some [d1; d2].
Proof. eexists _, _. vm_compute. reflexivity. Qed.

Lemma mock_nonempty key ds :
  MOCK_JOB_DESCRIPTIONS !! key = Some ds -> ds <> [].
Proof.
  unfold MOCK_JOB_DESCRIPTIONS. intros H.
  apply elem_of_list_to_map_2 in H.
  repeat (apply elem_of_cons in H as [H | H];
          [ injection H as _ ->; discriminate | ]).
  by apply elem_of_nil in H.
Qed.

Lemma mock_entry_nonempty job_title : mock_entry job_title <> [].
Proof.
  unfold mock_entry.
  destruct (MOCK_JOB_DESCRIPTIONS !! lower (strip job_title)) as [ds |] eqn:Hk.
  - by apply mock_nonempty in Hk.
  - destruct mock_default as (d1 & d2 & ->). discriminate.
Qed.

(** A run that ended with the fallback entry did not end with []. *)
Ltac fallback_is_nonempty H :=
  injection H as H _; apply mock_entry_nonempty in H.

Lemma get_mock_descriptions_run job_title tr :
  _get_mock_descriptions job_title tr = (Return (mock_entry job_title), tr).
Proof.
  unfold _get_mock_descriptions, mock_entry, bind, lift, ret, getitem.
  destruct mock_default as (d1 & d2 & ->).
  by destruct (MOCK_JOB_DESCRIPTIONS !! lower (strip job_title)).
Qed.

(** ** The primary source *)

Lemma for_each_clean_job w jobs acc tr :
  for_each jobs (clean_job w) acc tr = (cleaned w jobs acc, tr).
Proof.
  revert acc. induction jobs as [| job jobs IH]; intros acc; [done |].
  cbn [for_each cleaned]. unfold bind at 1. unfold clean_job at 1.
  unfold bind, lift, ret.
  destruct (py_get job "description" (PStr "")) as [raw | e]; [| done].
  destruct (truthy raw); [| apply IH].
  destruct (soup_get_text w raw) as [t | e]; [apply IH | done].
Qed.

Lemma fetch_from_adzuna_run w job_title app_id app_key rpp tr :
  _fetch_from_adzuna w job_title app_id app_key rpp tr =
  match import_requests w, import_bs4 w with
  | Raise e, _ => (Raise e, tr)
  | Return _, Raise e => (Raise e, tr)
  | Return _, Return _ =>
      let url := adzuna_url job_title app_id app_key rpp in
      let tr' := (tr ++ [HttpGet url 10])%list in
      match requests_get w url 10 with
      | Raise e => (Raise e, tr')
      | Return r =>
          match raise_for_status r, json r with
          | Raise e, _ => (Raise e, tr')
          | Return _, Raise e => (Raise e, tr')
          | Return _, Return data =>
              match py_get data "results" (PList []) with
              | Raise e => (Raise e, tr')
              | Return results =>
                  if truthy results then
                    match py_iter results with
                    | Raise e => (Raise e, tr')
                    | Return jobs => (cleaned w jobs [], tr')
                    end
                  else (Return (mock_entry job_title), tr')
              end
          end
      end
  end.
Proof.
  unfold _fetch_from_adzuna, bind, lift, emit.
  destruct (import_requests w); [| done].
  destruct (import_bs4 w); [| done]. cbn zeta.
  destruct (requests_get w _ 10) as [r | e]; [| done].
  destruct (raise_for_status r); [| done].
  destruct (json r) as [data | e]; [| done].
  destruct (py_get data "results" (PList [])) as [results | e]; [| done].
  destruct (truthy results); cbn [negb].
  - destruct (py_iter results) as [jobs | e]; [| done].
    apply for_each_clean_job.
  - apply get_mock_descriptions_run.
Qed.

Lemma fetch_job_descriptions_run w job_title tr :
  _fetch_job_descriptions w job_title tr =
  match credentials w with
  | None => (Return (mock_entry job_title), tr)
  | Some (app_id, app_key) =>
      match _fetch_from_adzuna w job_title app_id app_key 10 tr with
      | (Return ds, tr') => (Return ds, tr')
      | (Raise e, tr') => (Return (mock_entry job_title), tr')
      end
  end.
Proof.
  unfold _fetch_job_descriptions, credentials, try_except.
  destruct (environ w !! "ADZUNA_APP_ID") as [app_id |];
    [| apply get_mock_descriptions_run].
  destruct (environ w !! "ADZUNA_APP_KEY") as [app_key |];
    [| apply get_mock_descriptions_run].
  destruct (is_empty app_id || is_empty app_key);
    [apply get_mock_descriptions_run |].
  destruct (_fetch_from_adzuna w job_title app_id app_key 10 tr) as [[ds | e] tr'];
    [done | apply get_mock_descriptions_run].
Qed.

Lemma cleaned_Return w jobs acc ds :
  cleaned w jobs acc = Return ds ->
  Forall is_dict jobs /\
  exists texts,
    ds = (acc ++ texts)%list /\
    Forall2 (fun job text => soup_get_text w (raw_description job) = Return text)
            (List.filter has_description jobs) texts.
Proof.
  revert acc. induction jobs as [| job jobs IH]; intros acc; cbn [cleaned].
  - intros [= <-]. split; [constructor |].
    exists []. split; [by rewrite app_nil_r | constructor].
  - unfold has_description, raw_description. cbn [List.filter].
    destruct job; cbn [py_get]; try discriminate.
    destruct (truthy _) eqn:Ht.
    + destruct (soup_get_text w _) as [t |] eqn:Hs; [| discriminate].
      intros H. apply IH in H as (Hd & texts & -> & HF).
      split; [by constructor |].
      exists (t :: texts). split; [by rewrite <- app_assoc |].
      by constructor.
    + intros H. apply IH in H as (Hd & texts & -> & HF).
      split; [by constructor | by exists texts].
Qed.

Lemma cleaned_blank w jobs acc :
  Forall (fun job => is_dict job /\ has_description job = false) jobs ->
  cleaned w jobs acc = Return acc.
Proof.
  induction 1 as [| job jobs [Hd Hb] _ IH]; [done |].
  cbn [cleaned]. unfold has_description, raw_description in Hb.
  destruct job; try done. cbn [py_get] in *. by rewrite Hb.
Qed.

(** Only a list of results gets through the loop: the keys of a dict and
    the characters of a string have no [get]. *)
Lemma iterated_results results jobs w ds :
  truthy results = true -> py_iter results = Return jobs ->
  cleaned w jobs [] = Return ds -> results = PList jobs.
Proof.
  destruct results as [| | | | s | l | d]; cbn [py_iter truthy]; try discriminate.
  - destruct s; [discriminate |]. by intros _ [= <-].
  - by intros _ [= <-].
  - destruct d; [discriminate |]. by intros _ [= <-].
Qed.

(** The trace of a fetch: at most one request is added, no model call. *)
Lemma fetch_from_adzuna_trace w job_title app_id app_key rpp tr o tr' :
  _fetch_from_adzuna w job_title app_id app_key rpp tr = (o, tr') ->
  tr' = tr \/
  tr' = (tr ++ [HttpGet (adzuna_url job_title app_id app_key rpp) 10])%list.
Proof.
  rewrite fetch_from_adzuna_run. cbn zeta.
  repeat case_match; intros [= <- <-]; auto.
Qed.

Lemma fetch_job_descriptions_trace w job_title tr o tr' :
  _fetch_job_descriptions w job_title tr = (o, tr') ->
  model_calls tr' = model_calls tr.
Proof.
  rewrite fetch_job_descriptions_run.
  destruct (credentials w) as [[app_id app_key] |]; [| by intros [= <- <-]].
  destruct (_fetch_from_adzuna _ _ _ _ _ _) as [o1 tr1] eqn:Hf.
  apply fetch_from_adzuna_trace in Hf.
  assert (model_calls tr1 = model_calls tr) as Hm.
  { destruct Hf as [-> | ->]; [done |].
    unfold model_calls. rewrite List.filter_app. cbn. apply app_nil_r. }
  destruct o1; by intros [= <- <-].
Qed.

Lemma fetch_job_descriptions_total w job_title tr :
  exists ds tr', _fetch_job_descriptions w job_title tr = (Return ds, tr').
Proof.
  rewrite fetch_job_descriptions_run.
  destruct (credentials w) as [[app_id app_key] |]; [| by eauto].
  destruct (_fetch_from_adzuna _ _ _ _ _ _) as [[ds | e] tr1]; by eauto.
Qed.

(** ** Keyword extraction and the pipeline *)

Lemma extract_keywords_run self text n tr :
  _extract_keywords self text n tr =
  match _kw_model self with
  | None => (Return [], tr)
  | Some kw_model =>
      (Return match extract_keywords kw_model text (keybert_args n) with
              | Return keywords_with_scores => map fst keywords_with_scores
              | Raise _ => []
              end,
       (tr ++ [ModelCall text (keybert_args n)])%list)
  end.
Proof.
  unfold _extract_keywords, try_except, bind, lift, emit, ret.
  destruct (_kw_model self) as [m |]; [| done].
  by destruct (extract_keywords m text (keybert_args n)).
Qed.

Lemma extract_skills_run w self job_title n tr :
  extract_skills w self job_title n tr =
  match _fetch_job_descriptions w job_title tr with
  | (Return [], tr') => (Return [], tr')
  | (Return (d :: ds), tr') => _extract_keywords self (join " " (d :: ds)) n tr'
  | (Raise e, tr') => (Raise e, tr')
  end.
Proof.
  unfold extract_skills, bind at 1.
  destruct (_fetch_job_descriptions w job_title tr) as [[[| d ds] | e] tr'];
    [done | | done].
  unfold bind, ret. by destruct (_extract_keywords _ _ _ _) as [[] ?].
Qed.

(** ** The claims about the corpus provider *)

(** C1, as stated, fails: with credentials set, a response whose only
    result has no description makes [_fetch_job_descriptions] return the
    empty list. *)
Lemma fetch_job_descriptions_can_be_empty :
  result_of (_fetch_job_descriptions blank_world "flutter developer")
    = Return [].
Proof. vm_compute. reflexivity. Qed.

(** C1 (amended): [_fetch_job_descriptions] always returns a list, and the
    list is empty exactly when the primary source answered with a non-empty
    list of results, every one a dict without a (non-empty) description. In
    every other case, the fallback among them, it has at least one
    description. *)
Theorem fetch_job_descriptions_empty_iff w job_title tr :
  exists ds tr',
    _fetch_job_descriptions w job_title tr = (Return ds, tr') /\
    (ds = [] <->
     exists jobs,
       live_results w job_title jobs /\
       Forall (fun job => is_dict job /\ has_description job = false) jobs).
Proof.
  destruct (fetch_job_descriptions_total w job_title tr) as (ds & tr' & Hf).
  exists ds, tr'. split; [done |].
  rewrite fetch_job_descriptions_run in Hf. split.
  - intros ->.
    destruct (credentials w) as [[app_id app_key] |] eqn:Hc.
    2: by fallback_is_nonempty Hf.
    rewrite fetch_from_adzuna_run in Hf. cbn zeta in Hf.
    destruct (import_requests w) as [[] | e] eqn:Hi1.
    2: by fallback_is_nonempty Hf.
    destruct (import_bs4 w) as [[] | e] eqn:Hi2.
    2: by fallback_is_nonempty Hf.
    destruct (requests_get w _ 10) as [r | e] eqn:Hr.
    2: by fallback_is_nonempty Hf.
    destruct (raise_for_status r) as [[] | e] eqn:Hs.
    2: by fallback_is_nonempty Hf.
    destruct (json r) as [data | e] eqn:Hj.
    2: by fallback_is_nonempty Hf.
    destruct (py_get data "results" (PList [])) as [results | e] eqn:Hg.
    2: by fallback_is_nonempty Hf.
    destruct (truthy results) eqn:Ht.
    2: by fallback_is_nonempty Hf.
    destruct (py_iter results) as [jobs | e] eqn:Hit.
    2: by fallback_is_nonempty Hf.
    destruct (cleaned w jobs []) as [ds | e] eqn:Hcl.
    2: by fallback_is_nonempty Hf.
    injection Hf as -> _.
    pose proof (iterated_results _ _ _ _ Ht Hit Hcl) as ->.
    apply cleaned_Return in Hcl as (Hd & texts & Heq & HF).
    exists jobs. split.
    + exists app_id, app_key, r, data. repeat split; try done.
      intros ->. discriminate.
    + symmetry in Heq. apply app_eq_nil in Heq as [_ ->].
      apply Forall2_nil_inv_r in HF.
      clear -Hd HF. induction Hd as [| job jobs Hj _ IH]; [constructor |].
      cbn [List.filter] in HF.
      destruct (has_description job) eqn:Hh; [discriminate |].
      constructor; auto.
  - intros (jobs & (app_id & app_key & r & data & Hc & Hi1 & Hi2 & Hr & Hs
                    & Hj & Hg & Hne) & Hblank).
    rewrite Hc, fetch_from_adzuna_run, Hi1, Hi2 in Hf. cbn zeta in Hf.
    rewrite Hr, Hs, Hj, Hg in Hf. cbn [py_iter] in Hf.
    assert (truthy (PList jobs) = true) as Ht by by destruct jobs.
    rewrite Ht, (cleaned_blank _ _ _ Hblank) in Hf. by injection Hf as <- _.
Qed.

(** C5, as stated, fails: a response with a status outside 2xx that is
    neither 4xx nor 5xx passes [raise_for_status], and its results are
    used instead of the fallback table. *)
Lemma status_300_is_not_a_failure :
  exists r,
    requests_get status_300_world
      (adzuna_url "flutter developer" "id" "key" 10) 10 = Return r /\
    ~ (200 <= status_code r < 300) /\
    result_of (_fetch_job_descriptions status_300_world "flutter developer")
      = Return ["Remote Flutter role"] /\
    ["Remote Flutter role"] <> mock_entry "flutter developer".
Proof.
  eexists. split; [reflexivity |]. cbn [status_code]. split; [lia |].
  split; [vm_compute; reflexivity |]. vm_compute. discriminate.
Qed.

Lemma primary_failure_falls_back w job_title app_id app_key tr :
  request_exception w job_title \/ error_status w job_title
  \/ zero_results w job_title ->
  credentials w = Some (app_id, app_key) ->
  exists tr',
    match _fetch_from_adzuna w job_title app_id app_key 10 tr with
    | (Return ds, tr1) => (Return ds, tr1)
    | (Raise e, tr1) => (Return (mock_entry job_title), tr1)
    end = (Return (mock_entry job_title), tr').
Proof.
  intros Hfail Hc. rewrite fetch_from_adzuna_run. cbn zeta.
  destruct (import_requests w); [| by eauto].
  destruct (import_bs4 w); [| by eauto].
  destruct Hfail as [(i & k & e & Hc' & Hr) | [(i & k & r & Hc' & Hr & Hs)
    | (i & k & r & data & results & Hc' & Hr & Hj & Hg & Ht)]];
    rewrite Hc in Hc'; injection Hc' as <- <-; rewrite Hr.
  - by eauto.
  - unfold raise_for_status.
    replace ((400 <=? status_code r) && (status_code r <? 600)) with true
      by (symmetry; apply andb_true_iff; lia).
    by eauto.
  - destruct (raise_for_status r); [| by eauto].
    rewrite Hj, Hg, Ht. by eauto.
Qed.

(** C5 (amended): whenever the primary source fails (missing credentials, a
    request exception, a 4xx or 5xx status, or zero results), the corpus is
    the fallback entry: the table is looked up at the title, trimmed and
    lower-cased, and a title without an entry gets the entry of "default",
    which has 2 descriptions. *)
Theorem fallback_lookup w job_title tr :
  credentials w = None \/ request_exception w job_title
  \/ error_status w job_title \/ zero_results w job_title ->
  exists tr',
    _fetch_job_descriptions w job_title tr
      = (Return (mock_entry job_title), tr') /\
    (forall ds, MOCK_JOB_DESCRIPTIONS !! lower (strip job_title) = Some ds ->
                mock_entry job_title = ds) /\
    (MOCK_JOB_DESCRIPTIONS !! lower (strip job_title) = None ->
     MOCK_JOB_DESCRIPTIONS !! "default" = Some (mock_entry job_title) /\
     length (mock_entry job_title) = 2%nat).
Proof.
  intros Hfail.
  assert (exists tr', _fetch_job_descriptions w job_title tr
                      = (Return (mock_entry job_title), tr')) as [tr' Hf].
  { rewrite fetch_job_descriptions_run.
    destruct (credentials w) as [[app_id app_key] |] eqn:Hc; [| by eauto].
    destruct Hfail as [? | Hfail]; [done |].
    by apply primary_failure_falls_back. }
  exists tr'. split; [done |]. unfold mock_entry. split.
  - by intros ds ->.
  - intros ->. destruct mock_default as (d1 & d2 & ->). done.
Qed.

Lemma fallback_lookup_witness :
  credentials offline_world = None /\
  exists tr',
    _fetch_job_descriptions offline_world "unknown nonsense title xyz" []
      = (Return (mock_entry "unknown nonsense title xyz"), tr') /\
    (forall ds,
        MOCK_JOB_DESCRIPTIONS !! lower (strip "unknown nonsense title xyz")
          = Some ds ->
        mock_entry "unknown nonsense title xyz" = ds) /\
    (MOCK_JOB_DESCRIPTIONS !! lower (strip "unknown nonsense title xyz") = None ->
     MOCK_JOB_DESCRIPTIONS !! "default"
       = Some (mock_entry "unknown nonsense title xyz") /\
     length (mock_entry "unknown nonsense title xyz") = 2%nat).
Proof.
  split; [reflexivity |].
  apply (fallback_lookup offline_world "unknown nonsense title xyz" []).
  left. reflexivity.
Defined.

(** C10, as stated, fails: the code keeps every result the API sends; with
    eleven results and [results_per_page = 10] the corpus has eleven
    entries. *)
Lemma fetch_from_adzuna_exceeds_page_size :
  exists ds,
    result_of (_fetch_from_adzuna eleven_world "flutter developer" "id" "key" 10)
      = Return ds /\
    (10 < length ds)%nat.
Proof. eexists. split; [vm_compute; reflexivity |]. cbn. lia. Qed.

(** C10 (amended): when [_fetch_from_adzuna] returns normally from a
    non-empty [results], the results are a list, and the corpus consists
    exactly of the stripped texts of the results whose raw description is
    non-empty, in the order of the API results; so it has at most as many
    entries as the API returned results (at most [results_per_page] when
    the API sent no more than that). *)
Theorem fetch_from_adzuna_corpus w job_title app_id app_key rpp tr r data
    results ds tr' :
  requests_get w (adzuna_url job_title app_id app_key rpp) 10 = Return r ->
  json r = Return data ->
  py_get data "results" (PList []) = Return results ->
  truthy results = true ->
  _fetch_from_adzuna w job_title app_id app_key rpp tr = (Return ds, tr') ->
  exists jobs,
    results = PList jobs /\
    Forall2 (fun job text => soup_get_text w (raw_description job) = Return text)
            (List.filter has_description jobs) ds /\
    (length ds <= length jobs)%nat /\
    (Z.of_nat (length jobs) <= rpp -> Z.of_nat (length ds) <= rpp).
Proof.
  intros Hr Hj Hg Ht. rewrite fetch_from_adzuna_run. cbn zeta.
  destruct (import_requests w); [| discriminate].
  destruct (import_bs4 w); [| discriminate].
  rewrite Hr. destruct (raise_for_status r); [| discriminate].
  rewrite Hj, Hg, Ht.
  destruct (py_iter results) as [jobs |] eqn:Hit; [| discriminate].
  intros [= Hcl <-].
  pose proof (iterated_results _ _ _ _ Ht Hit Hcl) as ->.
  apply cleaned_Return in Hcl as (_ & texts & -> & HF).
  exists jobs. cbn [app]. split; [done |]. split; [done |].
  assert (length texts <= length jobs)%nat as Hlen.
  { apply Forall2_length in HF. rewrite <- HF. apply List.filter_length_le. }
  split; [done | lia].
Qed.

Lemma fetch_from_adzuna_corpus_witness :
  exists jobs,
    PList [job_with "Dart and Firebase"; blank_job; job_with "Git"] = PList jobs /\
    Forall2 (fun job text =>
               soup_get_text
                 (live_world (response_with 200
                    [job_with "Dart and Firebase"; blank_job; job_with "Git"]))
                 (raw_description job) = Return text)
            (List.filter has_description jobs) ["Dart and Firebase"; "Git"] /\
    (length ["Dart and Firebase"; "Git"] <= length jobs)%nat /\
    (Z.of_nat (length jobs) <= 10 ->
     Z.of_nat (length ["Dart and Firebase"; "Git"]) <= 10).
Proof.
  eapply (fetch_from_adzuna_corpus
            (live_world (response_with 200
               [job_with "Dart and Firebase"; blank_job; job_with "Git"]))
            "flutter developer" "id" "key" 10 []).
  - reflexivity.
  - reflexivity.
  - reflexivity.
  - reflexivity.
  - vm_compute. reflexivity.
Defined.

(** ** The claims about the pipeline *)

(** C2: [extract_skills] is total. For every environment, service, title
    and [top_n] it returns a list of strings and raises nothing, whatever
    fails in the request, in the model or in the extraction. *)
Theorem extract_skills_total w self job_title n tr :
  exists skills tr',
    extract_skills w self job_title n tr = (Return skills, tr').
Proof.
  rewrite extract_skills_run.
  destruct (fetch_job_descriptions_total w job_title tr) as (ds & tr1 & ->).
  destruct ds as [| d ds]; [by eauto |].
  rewrite extract_keywords_run.
  destruct (_kw_model self); by eauto.
Qed.

(** Construction leaves the handle [None] when the model cannot be
    loaded. *)
Lemma init_failure w e : load_keybert w = Raise e -> _kw_model (__init__ w) = None.
Proof. unfold __init__. by intros ->. Qed.

(** C6: with the model handle [None], [extract_skills] returns the empty
    list for every title and [top_n], and the model is not called. *)
Theorem model_unavailable_gives_empty w self job_title n tr :
  _kw_model self = None ->
  exists tr',
    extract_skills w self job_title n tr = (Return [], tr') /\
    model_calls tr' = model_calls tr.
Proof.
  intros Hm. rewrite extract_skills_run.
  destruct (fetch_job_descriptions_total w job_title tr) as (ds & tr1 & Hf).
  rewrite Hf. apply fetch_job_descriptions_trace in Hf.
  destruct ds as [| d ds]; [by eauto |].
  rewrite extract_keywords_run, Hm. by eauto.
Qed.

Lemma model_unavailable_gives_empty_witness :
  _kw_model (__init__ offline_world) = None /\
  exists tr',
    extract_skills offline_world (__init__ offline_world)
                   "flutter developer" 10 [] = (Return [], tr') /\
    model_calls tr' = model_calls [].
Proof.
  split; [exact (init_failure offline_world ImportError eq_refl) |].
  apply (model_unavailable_gives_empty offline_world (__init__ offline_world)
           "flutter developer" 10 []).
  exact (init_failure offline_world ImportError eq_refl).
Defined.

(** C9: when the corpus fetch returns the empty list, [extract_skills]
    returns the empty list at once: the run ends with the trace of the
    fetch, no text is aggregated and the model is not called. *)
Theorem empty_corpus_short_circuit w self job_title n tr tr' :
  _fetch_job_descriptions w job_title tr = (Return [], tr') ->
  extract_skills w self job_title n tr = (Return [], tr') /\
  model_calls tr' = model_calls tr.
Proof.
  intros Hf. rewrite extract_skills_run, Hf. split; [done |].
  by apply fetch_job_descriptions_trace in Hf.
Qed.

Lemma empty_corpus_short_circuit_witness :
  extract_skills blank_world toy_service "flutter developer" 10 []
    = (Return [], [HttpGet (adzuna_url "flutter developer" "id" "key" 10) 10]) /\
  model_calls [HttpGet (adzuna_url "flutter developer" "id" "key" 10) 10]
    = model_calls [].
Proof.
  apply (empty_corpus_short_circuit blank_world toy_service
           "flutter developer" 10 []).
  vm_compute. reflexivity.
Defined.

(** ** The selection of the specification *)

Lemma better_spec ka kb :
  better ka kb = true <->
  (fst kb < fst ka \/ (fst ka == fst kb /\ snd kb < snd ka))%Q.
Proof.
  unfold better.
  rewrite orb_true_iff, andb_true_iff, !negb_true_iff, Qeq_bool_iff.
  rewrite <- !not_true_iff_false, !Qle_bool_iff.
  split; (intros [H | [H1 H2]]; [left | right; split; [done |]]);
    first [ by apply Qnot_le_lt | by apply Qlt_not_le ].
Qed.

Lemma better_false ka kb :
  better ka kb = false <->
  (fst ka <= fst kb /\ (fst ka == fst kb -> snd ka <= snd kb))%Q.
Proof.
  rewrite <- not_true_iff_false, better_spec. split.
  - intros H. split.
    + apply Qnot_lt_le. tauto.
    + intros Heq. apply Qnot_lt_le. tauto.
  - intros [H1 H2] [H | [Heq H]].
    + by apply Qlt_not_le in H.
    + apply Qlt_not_le in H. tauto.
Qed.

Lemma pick_best_None key l : pick_best key l = None -> l = [].
Proof.
  destruct l as [| c l]; [done |]. cbn [pick_best].
  destruct (pick_best key l) as [[b rest] |]; [| done].
  by destruct (better (key b) (key c)).
Qed.

Lemma pick_best_perm key l c rest :
  pick_best key l = Some (c, rest) -> l ≡ₚ c :: rest.
Proof.
  revert c rest. induction l as [| x l IH]; intros c rest; [done |].
  cbn [pick_best].
  destruct (pick_best key l) as [[b rest'] |] eqn:Hp.
  - destruct (better (key b) (key x)); intros [= <- <-]; [| done].
    rewrite (IH _ _ eq_refl). apply perm_swap.
  - apply pick_best_None in Hp as ->. by intros [= <- <-].
Qed.

Lemma pick_best_max key l c rest :
  pick_best key l = Some (c, rest) ->
  forall x, x ∈ l -> better (key x) (key c) = false.
Proof.
  revert c rest. induction l as [| y l IH]; intros c rest; [done |].
  cbn [pick_best].
  destruct (pick_best key l) as [[b rest'] |] eqn:Hp.
  - specialize (IH _ _ eq_refl).
    destruct (better (key b) (key y)) eqn:Hb; intros [= <- <-] x Hx;
      apply elem_of_cons in Hx as [-> | Hx].
    + apply better_spec in Hb. apply better_false. lra.
    + by apply IH.
    + apply better_false. lra.
    + apply IH in Hx. apply better_false in Hx, Hb. apply better_false.
      lra.
  - apply pick_best_None in Hp as ->. intros [= <- <-] x Hx.
    apply list_elem_of_singleton in Hx as ->. apply better_false. lra.
Qed.

Section Selection.
Context (E : Embedding).

Lemma mmr_loop_length fuel n d selected remaining :
  Z.of_nat (length (mmr_loop fuel E n d selected remaining))
  <= Z.max (Z.of_nat (length selected)) n.
Proof.
  revert selected remaining.
  induction fuel as [| fuel IH]; intros selected remaining; cbn [mmr_loop];
    [lia |].
  destruct (Z.of_nat (length selected) <? n) eqn:Hlt; [| lia].
  apply Z.ltb_lt in Hlt.
  destruct (pick_best _ remaining) as [[c rest] |]; [| lia].
  etrans; [apply IH |]. rewrite length_app. cbn [length]. lia.
Qed.

(** The fuel is enough: with a counter that covers Remaining, the loop
    stops only for the reasons section 4.4 gives. *)
Lemma mmr_loop_length_exact fuel n d selected remaining :
  (length remaining <= fuel)%nat ->
  Z.of_nat (length (mmr_loop fuel E n d selected remaining))
  = Z.max (Z.of_nat (length selected))
          (Z.min n (Z.of_nat (length selected + length remaining))).
Proof.
  revert selected remaining.
  induction fuel as [| fuel IH]; intros selected remaining Hf; cbn [mmr_loop].
  - destruct remaining; cbn [length] in *; lia.
  - destruct (Z.of_nat (length selected) <? n) eqn:Hlt;
      [apply Z.ltb_lt in Hlt | apply Z.ltb_ge in Hlt; lia].
    destruct (pick_best _ remaining) as [[c rest] |] eqn:Hp.
    + apply pick_best_perm, Permutation_length in Hp. cbn [length] in Hp.
      rewrite IH by lia. rewrite length_app. cbn [length]. lia.
    + apply pick_best_None in Hp as ->. cbn [length]. lia.
Qed.

Lemma mmr_loop_subset fuel n d selected remaining x :
  x ∈ mmr_loop fuel E n d selected remaining ->
  x ∈ selected \/ x ∈ remaining.
Proof.
  revert selected remaining.
  induction fuel as [| fuel IH]; intros selected remaining; cbn [mmr_loop];
    [by left |].
  destruct (Z.of_nat (length selected) <? n); [| by left].
  destruct (pick_best _ remaining) as [[c rest] |] eqn:Hp; [| by left].
  apply pick_best_perm in Hp. intros Hx. apply IH in Hx.
  rewrite Hp. destruct Hx as [Hx | Hx].
  - apply elem_of_app in Hx as [Hx | Hx]; [by left | right].
    apply list_elem_of_singleton in Hx as ->. by left.
  - right. by right.
Qed.

Lemma select_length scored n d :
  Z.of_nat (length (select E scored n d)) <= Z.max 1 n.
Proof.
  unfold select. destruct (pick_best relevance_key scored) as [[c rest] |].
  - etrans; [apply mmr_loop_length |]. cbn [length]. lia.
  - cbn [length]. lia.
Qed.

Lemma select_length_exact scored n d :
  Z.of_nat (length (select E scored n d))
  = Z.min (Z.max 1 n) (Z.of_nat (length scored)).
Proof.
  unfold select.
  destruct (pick_best relevance_key scored) as [[c rest] |] eqn:Hp.
  - rewrite mmr_loop_length_exact by done.
    apply pick_best_perm, Permutation_length in Hp. rewrite Hp.
    cbn [length]. lia.
  - apply pick_best_None in Hp as ->. cbn [length]. lia.
Qed.

Lemma select_subset scored n d x :
  x ∈ select E scored n d -> x ∈ scored.
Proof.
  unfold select.
  destruct (pick_best relevance_key scored) as [[c rest] |] eqn:Hp;
    [| by intros ?%elem_of_nil].
  apply pick_best_perm in Hp. intros Hx%mmr_loop_subset.
  rewrite Hp. destruct Hx as [Hx | Hx]; [| by right].
  apply list_elem_of_singleton in Hx as ->. by left.
Qed.

(** The first pick is the most relevant candidate. *)
Lemma select_head scored n d c rest :
  pick_best relevance_key scored = Some (c, rest) ->
  (exists tail, select E scored n d = c :: tail) /\
  forall x, x ∈ scored -> (relevance x <= relevance c)%Q.
Proof.
  intros Hp. split.
  - unfold select. rewrite Hp. clear Hp.
    assert (forall fuel sel rem,
               exists tail, mmr_loop fuel E n d (c :: sel) rem = c :: tail) as H.
    { induction fuel as [| fuel IH]; intros sel rem; cbn [mmr_loop];
        [by eauto |].
      destruct (_ <? n); [| by eauto].
      destruct (pick_best _ rem) as [[c' rest'] |]; [| by eauto].
      apply (IH (sel ++ [c'])%list). }
    apply H.
  - intros x Hx. apply (pick_best_max _ _ _ _ Hp) in Hx.
    apply better_false in Hx. cbn in Hx. tauto.
Qed.

Lemma fold_max_ge (f : Scored -> Q) l m :
  (m <= fold_left (fun m s => Qmax m (f s)) l m)%Q /\
  forall s, s ∈ l -> (f s <= fold_left (fun m s => Qmax m (f s)) l m)%Q.
Proof.
  revert m. induction l as [| y l IH]; intros m; cbn [fold_left].
  - split; [lra | by intros s ?%elem_of_nil].
  - destruct (IH (Qmax m (f y))) as [H1 H2].
    pose proof (Q.le_max_l m (f y)). pose proof (Q.le_max_r m (f y)).
    split; [lra |].
    intros s [-> | Hs]%elem_of_cons; [lra | by apply H2].
Qed.

Lemma fold_max_attained (f : Scored -> Q) l m :
  (fold_left (fun m s => Qmax m (f s)) l m == m)%Q \/
  exists s, s ∈ l /\ (fold_left (fun m s => Qmax m (f s)) l m == f s)%Q.
Proof.
  revert m. induction l as [| y l IH]; intros m; cbn [fold_left].
  - left. lra.
  - destruct (IH (Qmax m (f y))) as [H | (s & Hs & H)].
    + destruct (Q.max_spec m (f y)) as [[_ Hm] | [_ Hm]].
      * right. exists y. split; [by left | lra].
      * left. lra.
    + right. exists s. split; [by right | done].
Qed.

Lemma max_sim_upper selected c s :
  s ∈ selected ->
  (similarity E (surface c) (surface s) <= max_sim E selected c)%Q.
Proof.
  destruct selected as [| s0 ss]; [by intros ?%elem_of_nil |].
  cbn [max_sim].
  destruct (fold_max_ge (fun s' => similarity E (surface c) (surface s')) ss
              (similarity E (surface c) (surface s0))) as [H1 H2].
  intros [-> | Hs]%elem_of_cons; [done | by apply H2].
Qed.

Lemma max_sim_attained selected c :
  selected <> [] ->
  exists s, s ∈ selected /\
            (max_sim E selected c == similarity E (surface c) (surface s))%Q.
Proof.
  destruct selected as [| s0 ss]; [done |]. intros _. cbn [max_sim].
  destruct (fold_max_attained (fun s' => similarity E (surface c) (surface s'))
              ss (similarity E (surface c) (surface s0)))
    as [H | (s & Hs & H)].
  - exists s0. split; [by left | done].
  - exists s. split; [by right | done].
Qed.

(** A higher diversity moves the comparison of two candidates towards the
    more relevant one. *)
Lemma mmr_direction (d d' : Q) selected a b :
  (d <= d')%Q ->
  (relevance b <= relevance a)%Q ->
  (max_sim E selected b <= max_sim E selected a)%Q ->
  (mmr E d selected b <= mmr E d selected a)%Q ->
  (mmr E d' selected b <= mmr E d' selected a)%Q.
Proof.
  unfold mmr.
  generalize (relevance a) (relevance b) (max_sim E selected a)
             (max_sim E selected b).
  intros ra rb sa sb Hd Hr Hs H. nra.
Qed.

Lemma mmr_loop_perm fuel n d selected remaining :
  exists rest,
    (selected ++ remaining)%list
    ≡ₚ (mmr_loop fuel E n d selected remaining ++ rest)%list.
Proof.
  revert selected remaining.
  induction fuel as [| fuel IH]; intros selected remaining; cbn [mmr_loop];
    [by exists remaining |].
  destruct (Z.of_nat (length selected) <? n); [| by exists remaining].
  destruct (pick_best _ remaining) as [[c rest] |] eqn:Hp;
    [| by exists remaining].
  apply pick_best_perm in Hp.
  destruct (IH (selected ++ [c])%list rest) as [rest' H].
  exists rest'. rewrite Hp, <- H, <- app_assoc. done.
Qed.

End Selection.

(** ** Candidates and the model of the specification *)

Lemma dedup_NoDup l : NoDup (dedup l).
Proof.
  induction l as [| y l IH]; cbn [dedup]; [constructor |].
  constructor.
  - intros H. apply list_elem_of_In, List.filter_In in H as [_ H].
    by rewrite String.eqb_refl in H.
  - apply NoDup_ListNoDup, List.NoDup_filter. by apply NoDup_ListNoDup.
Qed.

Lemma score_surface E text candidates :
  map surface (score E text candidates) = candidates.
Proof.
  unfold score. rewrite map_map. cbn [surface]. apply map_id.
Qed.

Lemma spec_keybert_keywords E text n tr :
  fst (_extract_keywords {| _kw_model := Some (spec_keybert E) |} text n tr)
  = Return (map surface
              (select E (score E text (generate E text)) n (1 # 2))).
Proof.
  rewrite extract_keywords_run. cbn. by rewrite map_map.
Qed.

(** ** The claims that rest on the selection of the specification *)

(** The score of step 3a at the operating point of the source: with
    diversity 1/2 the two weights are equal. *)
Lemma mmr_operating_point E selected c :
  (mmr E (diversity (keybert_args 10)) selected c
   == (relevance c - max_sim E selected c) / 2)%Q.
Proof. unfold mmr. cbn [diversity keybert_args]. field. Qed.

(** C4: the selection behind [_extract_keywords] picks, among the remaining
    candidates, one that maximizes
    [diversity * relevance(c) - (1 - diversity) * max_sim(c)], where
    [max_sim(c)] is the largest similarity of [c] to a selected candidate;
    raising the diversity moves every comparison towards the more relevant
    candidate; and [_extract_keywords] runs it with diversity 1/2. *)
Theorem mmr_selection_rule E d selected remaining c rest :
  selected <> [] ->
  pick_best (mmr_key E d selected) remaining = Some (c, rest) ->
  (forall fuel n,
      Z.of_nat (length selected) < n ->
      mmr_loop (S fuel) E n d selected remaining
      = mmr_loop fuel E n d (selected ++ [c])%list rest) /\
  (forall c',
      c' ∈ remaining ->
      (d * relevance c' - (1 - d) * max_sim E selected c'
       <= d * relevance c - (1 - d) * max_sim E selected c)%Q) /\
  (forall c' s,
      s ∈ selected ->
      (similarity E (surface c') (surface s) <= max_sim E selected c')%Q) /\
  (forall c',
      exists s, s ∈ selected /\
        (max_sim E selected c' == similarity E (surface c') (surface s))%Q) /\
  (forall d' a b,
      (d <= d')%Q ->
      (relevance b <= relevance a)%Q ->
      (max_sim E selected b <= max_sim E selected a)%Q ->
      (mmr E d selected b <= mmr E d selected a)%Q ->
      (mmr E d' selected b <= mmr E d' selected a)%Q) /\
  (forall text n tr,
      fst (_extract_keywords {| _kw_model := Some (spec_keybert E) |} text n tr)
      = Return (map surface
                  (select E (score E text (generate E text)) n (1 # 2))) /\
      use_mmr (keybert_args n) = true /\
      diversity (keybert_args n) = 1 # 2).
Proof.
  intros Hne Hp. repeat split.
  - intros fuel n Hlt. cbn [mmr_loop].
    apply Z.ltb_lt in Hlt. by rewrite Hlt, Hp.
  - intros c' Hc'. apply (pick_best_max _ _ _ _ Hp) in Hc'.
    apply better_false in Hc' as [H _]. exact H.
  - intros c' s. apply max_sim_upper.
  - intros c'. by apply max_sim_attained.
  - intros d' a b. apply mmr_direction.
  - apply spec_keybert_keywords.
Qed.

Lemma mmr_selection_rule_witness :
  [cand_flutter] <> [] /\
  pick_best (mmr_key toy_embedding (1 # 2) [cand_flutter])
            [cand_dart; cand_firebase]
    = Some (cand_firebase, [cand_dart]) /\
  ((1 # 2) * relevance cand_dart
   - (1 - (1 # 2)) * max_sim toy_embedding [cand_flutter] cand_dart
   <= (1 # 2) * relevance cand_firebase
      - (1 - (1 # 2)) * max_sim toy_embedding [cand_flutter] cand_firebase)%Q.
Proof.
  assert ([cand_flutter] <> []) as Hne by discriminate.
  assert (pick_best (mmr_key toy_embedding (1 # 2) [cand_flutter])
                    [cand_dart; cand_firebase]
          = Some (cand_firebase, [cand_dart])) as Hp
    by (vm_compute; reflexivity).
  split; [exact Hne |]. split; [exact Hp |].
  destruct (mmr_selection_rule toy_embedding (1 # 2) [cand_flutter]
              [cand_dart; cand_firebase] cand_firebase [cand_dart] Hne Hp)
    as (_ & Hmax & _).
  apply Hmax. left.
Defined.

(** ** The tie-breaking rule leaves no choice *)

Lemma app_cons_eq_cases {A} (pre1 pre2 : list A) c1 c2 post1 post2 :
  (pre1 ++ c1 :: post1 = pre2 ++ c2 :: post2)%list ->
  (pre1 = pre2 /\ c1 = c2 /\ post1 = post2) \/
  (exists mid, pre2 = (pre1 ++ c1 :: mid)%list /\
               post1 = (mid ++ c2 :: post2)%list) \/
  (exists mid, pre1 = (pre2 ++ c2 :: mid)%list /\
               post2 = (mid ++ c1 :: post1)%list).
Proof.
  revert pre2. induction pre1 as [| a pre1 IH]; intros [| b pre2]; cbn [app].
  - intros [= -> ->]. by left.
  - intros [= -> ->]. right. left. by exists pre2.
  - intros [= -> <-]. right. right. by exists pre1.
  - intros [= -> H]. apply IH in H as [(-> & -> & ->) | [(mid & -> & ->)
      | (mid & -> & ->)]].
    + by left.
    + right. left. by exists mid.
    + right. right. by exists mid.
Qed.

Lemma picks_nil key c rest : ~ picks key [] c rest.
Proof. inversion 1 as [pre c' post _ _ Heq]. by destruct pre. Qed.

(** Two picks from the same Remaining are the same pick. *)
Lemma picks_unique key remaining c1 rest1 c2 rest2 :
  picks key remaining c1 rest1 -> picks key remaining c2 rest2 ->
  c1 = c2 /\ rest1 = rest2.
Proof.
  intros H1 H2.
  destruct H1 as [pre1 c1 post1 Hmax1 Hfirst1].
  inversion H2 as [pre2 c2' post2 Hmax2 Hfirst2 Heq]. subst.
  apply app_cons_eq_cases in Heq
    as [(-> & -> & ->) | [(mid & -> & ->) | (mid & -> & ->)]].
  - done.
  - (* [c2] stands before [c1] *)
    assert (better (key c1) (key c2) = true) as Hb
      by (apply Hfirst1, elem_of_app; right; by left).
    rewrite Hmax2 in Hb; [done |].
    apply elem_of_app. right. right. apply elem_of_app. right. by left.
  - (* [c1] stands before [c2] *)
    assert (better (key c2) (key c1) = true) as Hb
      by (apply Hfirst2, elem_of_app; right; by left).
    rewrite Hmax1 in Hb; [done |].
    apply elem_of_app. right. right. apply elem_of_app. right. by left.
Qed.

Lemma pick_best_split key l c rest :
  pick_best key l = Some (c, rest) ->
  exists pre post,
    l = (pre ++ c :: post)%list /\ rest = (pre ++ post)%list /\
    forall x, x ∈ pre -> better (key c) (key x) = true.
Proof.
  revert c rest. induction l as [| y l IH]; intros c rest; [done |].
  cbn [pick_best].
  destruct (pick_best key l) as [[b rest'] |] eqn:Hp.
  - destruct (IH _ _ eq_refl) as (pre & post & -> & -> & Hfirst).
    destruct (better (key b) (key y)) eqn:Hb; intros [= <- <-].
    + exists (y :: pre), post. repeat split.
      intros x [-> | Hx]%elem_of_cons; [done | by apply Hfirst].
    + exists [], (pre ++ b :: post)%list. repeat split.
      by intros x ?%elem_of_nil.
  - apply pick_best_None in Hp as ->. intros [= <- <-].
    exists [], []. repeat split. by intros x ?%elem_of_nil.
Qed.

(** The function [pick_best] makes the pick the relation describes. *)
Lemma pick_best_picks key l c rest :
  pick_best key l = Some (c, rest) -> picks key l c rest.
Proof.
  intros Hp. pose proof (pick_best_max _ _ _ _ Hp) as Hmax.
  apply pick_best_split in Hp as (pre & post & -> & -> & Hfirst).
  by constructor.
Qed.

Lemma mmr_steps_unique E n d selected remaining r1 r2 :
  mmr_steps E n d selected remaining r1 ->
  mmr_steps E n d selected remaining r2 ->
  r1 = r2.
Proof.
  intros H1. revert r2.
  induction H1 as [selected remaining Hfull | selected
                   | selected remaining c rest result Hlt Hpick _ IH];
    intros r2 H2.
  - inversion H2; subst; [done | done | lia].
  - inversion H2 as [| | ? ? c rest ? _ Hpick _]; subst; [done | done |].
    by apply picks_nil in Hpick.
  - inversion H2 as [| | ? ? c' rest' ? _ Hpick' Hsteps']; subst.
    + lia.
    + by apply picks_nil in Hpick.
    + destruct (picks_unique _ _ _ _ _ _ Hpick Hpick') as [-> ->].
      by apply IH.
Qed.

Lemma mmr_loop_steps E fuel n d selected remaining :
  (length remaining <= fuel)%nat ->
  mmr_steps E n d selected remaining
            (mmr_loop fuel E n d selected remaining).
Proof.
  revert selected remaining.
  induction fuel as [| fuel IH]; intros selected remaining Hf; cbn [mmr_loop].
  - destruct remaining; [apply steps_empty | cbn [length] in Hf; lia].
  - destruct (Z.of_nat (length selected) <? n) eqn:Hlt.
    + apply Z.ltb_lt in Hlt.
      destruct (pick_best _ remaining) as [[c rest] |] eqn:Hp.
      * eapply steps_pick; [done | by apply pick_best_picks |].
        apply IH. apply pick_best_perm, Permutation_length in Hp.
        cbn [length] in Hp. lia.
      * apply pick_best_None in Hp as ->. apply steps_empty.
    + apply Z.ltb_ge in Hlt. apply steps_full. lia.
Qed.

(** The function [select] returns a selection that the steps allow. *)
Lemma select_selects E scored n d : selects E n d scored (select E scored n d).
Proof.
  unfold select.
  destruct (pick_best relevance_key scored) as [[c rest] |] eqn:Hp.
  - eapply selects_first; [by apply pick_best_picks |].
    by apply mmr_loop_steps.
  - apply pick_best_None in Hp as ->. apply selects_none.
Qed.

Lemma selects_unique E n d scored r1 r2 :
  selects E n d scored r1 -> selects E n d scored r2 -> r1 = r2.
Proof.
  intros H1 H2.
  destruct H1 as [| scored c rest r1 Hpick Hsteps].
  - inversion H2 as [| ? ? ? ? Hpick' _]; subst; [done |].
    by apply picks_nil in Hpick'.
  - inversion H2 as [| ? c' rest' ? Hpick' Hsteps']; subst.
    + by apply picks_nil in Hpick.
    + destruct (picks_unique _ _ _ _ _ _ Hpick Hpick') as [-> ->].
      by eapply mmr_steps_unique.
Qed.

(** C8: the selection is determined by its inputs. For the same scored
    candidates (the same text and embedding model), the same [top_n] and
    the same diversity, any two selections that steps 1 to 4 allow are
    equal element for element: the tie-breaking rule (higher relevance,
    then first occurrence) leaves no choice. It is the selection that
    [select] computes, and the keyword-extraction step returns its surface
    forms in that order. *)
Theorem keyword_selection_deterministic E scored n d r1 r2 :
  selects E n d scored r1 ->
  selects E n d scored r2 ->
  r1 = r2 /\
  r1 = select E scored n d /\
  (forall text tr,
      scored = score E text (generate E text) ->
      d = 1 # 2 ->
      fst (_extract_keywords {| _kw_model := Some (spec_keybert E) |} text n tr)
      = Return (map surface r1)).
Proof.
  intros H1 H2. split; [by eapply selects_unique |].
  assert (r1 = select E scored n d) as ->
    by (eapply selects_unique; [done | apply select_selects]).
  split; [done |]. intros text tr -> ->. apply spec_keybert_keywords.
Qed.

Lemma keyword_selection_deterministic_witness :
  select toy_embedding
    (score toy_embedding "Flutter and Dart. Firebase"
       (generate toy_embedding "Flutter and Dart. Firebase")) 2 (1 # 2)
  = select toy_embedding
      (score toy_embedding "Flutter and Dart. Firebase"
         (generate toy_embedding "Flutter and Dart. Firebase")) 2 (1 # 2) /\
  select toy_embedding
    (score toy_embedding "Flutter and Dart. Firebase"
       (generate toy_embedding "Flutter and Dart. Firebase")) 2 (1 # 2)
  = select toy_embedding
      (score toy_embedding "Flutter and Dart. Firebase"
         (generate toy_embedding "Flutter and Dart. Firebase")) 2 (1 # 2) /\
  (forall text tr,
      score toy_embedding "Flutter and Dart. Firebase"
        (generate toy_embedding "Flutter and Dart. Firebase")
      = score toy_embedding text (generate toy_embedding text) ->
      1 # 2 = 1 # 2 ->
      fst (_extract_keywords
             {| _kw_model := Some (spec_keybert toy_embedding) |} text 2 tr)
      = Return
          (map surface
             (select toy_embedding
                (score toy_embedding "Flutter and Dart. Firebase"
                   (generate toy_embedding "Flutter and Dart. Firebase"))
                2 (1 # 2)))).
Proof.
  apply (keyword_selection_deterministic toy_embedding
           (score toy_embedding "Flutter and Dart. Firebase"
              (generate toy_embedding "Flutter and Dart. Firebase"))
           2 (1 # 2)); apply select_selects.
Defined.

(** ** The pipeline applies no cap of its own *)





(** ** Further properties *)

(** The selection returns no surface form twice. *)
Lemma select_NoDup E text n d :
  NoDup (map surface (select E (score E text (generate E text)) n d)).
Proof.
  assert (NoDup (map surface (score E text (generate E text)))) as Hnd
    by (rewrite score_surface; apply dedup_NoDup).
  revert Hnd. generalize (score E text (generate E text)) as scored.
  intros scored Hnd. unfold select.
  destruct (pick_best relevance_key scored) as [[c rest] |] eqn:Hp;
    [| constructor].
  apply pick_best_perm in Hp.
  destruct (mmr_loop_perm E (length rest) n d [c] rest) as [rest' Hperm].
  cbn [app] in Hperm. rewrite <- Hp in Hperm.
  apply (Permutation_map surface) in Hperm. rewrite Hperm, map_app in Hnd.
  by apply NoDup_app in Hnd as [Hnd _].
Qed.

(** X1: whatever the model is, the pipeline adds nothing and drops nothing.
    With a non-empty corpus and a loaded model whose call returns pairs, the
    result is exactly the keywords of those pairs, in their order; it is
    empty when the corpus is empty, when no model is loaded, and when the
    model call raises. *)
Theorem extract_skills_returns_model_keywords w self job_title n tr :
  exists ds tr1 skills tr',
    _fetch_job_descriptions w job_title tr = (Return ds, tr1) /\
    extract_skills w self job_title n tr = (Return skills, tr') /\
    (ds = [] -> skills = []) /\
    (_kw_model self = None -> skills = []) /\
    (forall kw_model,
        ds <> [] -> _kw_model self = Some kw_model ->
        (forall keywords_with_scores,
            extract_keywords kw_model (join " " ds) (keybert_args n)
              = Return keywords_with_scores ->
            skills = map fst keywords_with_scores) /\
        (forall e,
            extract_keywords kw_model (join " " ds) (keybert_args n)
              = Raise e ->
            skills = [])).
Proof.
  destruct (fetch_job_descriptions_total w job_title tr) as (ds & tr1 & Hf).
  exists ds, tr1. rewrite extract_skills_run, Hf.
  destruct ds as [| d ds].
  { eexists _, _. repeat split; done. }
  rewrite extract_keywords_run.
  destruct (_kw_model self) as [m |].
  - eexists _, _. split; [done |]. split; [done |].
    split; [done |]. split; [done |].
    intros kw_model _ [= <-]. split.
    + by intros kws ->.
    + by intros e ->.
  - eexists _, _. repeat split; done.
Qed.

(** X2: a primary source that answers with a 4xx or 5xx status gives the
    same corpus as an environment without credentials. *)
Theorem error_status_like_unconfigured w w' job_title tr tr' :
  error_status w job_title ->
  credentials w' = None ->
  fst (_fetch_job_descriptions w job_title tr)
    = fst (_fetch_job_descriptions w' job_title tr').
Proof.
  intros Hs Hc.
  rewrite (fetch_job_descriptions_run w'), Hc.
  rewrite fetch_job_descriptions_run.
  destruct Hs as (app_id & app_key & r & Hcw & Hr & Hst).
  rewrite Hcw.
  destruct (primary_failure_falls_back w job_title app_id app_key tr)
    as [tr1 ->]; [| done | done].
  right. left. by exists app_id, app_key, r.
Qed.

Lemma error_status_like_unconfigured_witness :
  fst (_fetch_job_descriptions (live_world (response_with 500 []))
         "Data Scientist" [])
    = fst (_fetch_job_descriptions offline_world "Data Scientist" []).
Proof.
  apply (error_status_like_unconfigured (live_world (response_with 500 []))
           offline_world "Data Scientist" [] []).
  - exists "id", "key". eexists. split; [reflexivity |].
    split; [reflexivity |]. cbn [status_code]. lia.
  - reflexivity.
Defined.

(** ** Titles: trimming and lower-casing *)

Lemma lstrip_all_space s : all_space s = true -> lstrip s = EmptyString.
Proof.
  induction s as [| c s IH]; cbn [all_space lstrip]; [done |].
  intros [-> Hs]%andb_true_iff. auto.
Qed.

Lemma rstrip_all_space s : all_space s = true -> rstrip s = EmptyString.
Proof.
  induction s as [| c s IH]; cbn [all_space rstrip]; [done |].
  intros [-> Hs]%andb_true_iff. by rewrite (IH Hs).
Qed.

(** The test of the route, [if not job_title] after [strip()], is the test
    for a title of whitespace only. *)
Lemma strip_blank s : is_empty (strip s) = all_space s.
Proof.
  unfold strip. induction s as [| c s IH]; cbn [all_space lstrip]; [done |].
  destruct (is_space c) eqn:Hc; cbn [andb]; [done |].
  cbn [rstrip]. by rewrite Hc.
Qed.

Lemma append_empty s : EmptyString +:+ s = s.
Proof. reflexivity. Qed.

Lemma append_String c s t : String c s +:+ t = String c (s +:+ t).
Proof. reflexivity. Qed.

Lemma lstrip_app_space pre s :
  all_space pre = true -> lstrip (pre +:+ s) = lstrip s.
Proof.
  induction pre as [| c pre IH]; cbn [all_space]; [done |].
  intros [Hc Hs]%andb_true_iff.
  rewrite append_String. cbn [lstrip]. rewrite Hc. auto.
Qed.

Lemma rstrip_app_space s post :
  all_space post = true -> rstrip (s +:+ post) = rstrip s.
Proof.
  intros Hp. induction s as [| c s IH].
  - rewrite append_empty. by apply rstrip_all_space.
  - rewrite append_String. cbn [rstrip]. by rewrite IH.
Qed.

Lemma strip_app_space s post :
  all_space post = true -> strip (s +:+ post) = strip s.
Proof.
  intros Hp. unfold strip.
  induction s as [| c s IH].
  - by rewrite append_empty, (lstrip_all_space _ Hp).
  - rewrite append_String. cbn [lstrip].
    destruct (is_space c); [done |].
    rewrite <- append_String. by apply rstrip_app_space.
Qed.

Lemma strip_padded pre t post :
  all_space pre = true -> all_space post = true ->
  strip (pre +:+ t +:+ post) = strip t.
Proof.
  intros Hpre Hpost. unfold strip at 1. rewrite lstrip_app_space by done.
  by apply strip_app_space.
Qed.

Lemma is_space_lower c : is_space (lower_char c) = is_space c.
Proof. by destruct c as [[] [] [] [] [] [] [] []]. Qed.

Lemma is_empty_lower s : is_empty (lower s) = is_empty s.
Proof. by destruct s. Qed.

Lemma lower_lstrip s : lower (lstrip s) = lstrip (lower s).
Proof.
  induction s as [| c s IH]; cbn [lower lstrip]; [done |].
  rewrite is_space_lower. by destruct (is_space c).
Qed.

Lemma lower_rstrip s : lower (rstrip s) = rstrip (lower s).
Proof.
  induction s as [| c s IH]; cbn [lower rstrip]; [done |].
  rewrite is_space_lower, <- IH, is_empty_lower.
  by destruct (is_space c && is_empty (rstrip s)).
Qed.

Lemma lower_strip s : lower (strip s) = strip (lower s).
Proof. unfold strip. by rewrite lower_rstrip, lower_lstrip. Qed.

(** The keys of the table are trimmed and in lower case. *)
Lemma mock_keys_normal key ds :
  MOCK_JOB_DESCRIPTIONS !! key = Some ds -> strip key = key /\ lower key = key.
Proof.
  unfold MOCK_JOB_DESCRIPTIONS. intros H.
  apply elem_of_list_to_map_2 in H.
  repeat (apply elem_of_cons in H as [H | H];
          [ injection H as -> _; by vm_compute | ]).
  by apply elem_of_nil in H.
Qed.

(** X3: every entry of the fallback table is returned for its key written
    in any letter case and padded with any whitespace. *)
Theorem mock_lookup_ignores_case_and_padding key ds pre t post tr :
  MOCK_JOB_DESCRIPTIONS !! key = Some ds ->
  lower t = key ->
  all_space pre = true -> all_space post = true ->
  _get_mock_descriptions (pre +:+ t +:+ post) tr = (Return ds, tr).
Proof.
  intros Hk Ht Hpre Hpost. rewrite get_mock_descriptions_run.
  unfold mock_entry.
  rewrite strip_padded, lower_strip, Ht by done.
  destruct (mock_keys_normal _ _ Hk) as [-> _]. by rewrite Hk.
Qed.

Lemma mock_lookup_ignores_case_and_padding_witness :
  exists ds,
    MOCK_JOB_DESCRIPTIONS !! "devops engineer" = Some ds /\
    _get_mock_descriptions ("  " +:+ "DevOps Engineer" +:+ " ") []
      = (Return ds, []).
Proof.
  destruct (MOCK_JOB_DESCRIPTIONS !! "devops engineer") as [ds |] eqn:Hk;
    [| by vm_compute in Hk].
  exists ds. split; [reflexivity |].
  apply (mock_lookup_ignores_case_and_padding "devops engineer" ds
           "  " "DevOps Engineer" " " [] Hk); reflexivity.
Defined.

(** ** External calls of a run *)

Lemma fetch_job_descriptions_request w job_title tr o tr' :
  _fetch_job_descriptions w job_title tr = (o, tr') ->
  exists http,
    tr' = (tr ++ http)%list /\
    (http = [] \/
     exists app_id app_key,
       credentials w = Some (app_id, app_key) /\
       http = [HttpGet (adzuna_url job_title app_id app_key 10) 10]).
Proof.
  rewrite fetch_job_descriptions_run.
  destruct (credentials w) as [[app_id app_key] |].
  - destruct (_fetch_from_adzuna _ _ _ _ _ _) as [o1 tr1] eqn:Hf.
    apply fetch_from_adzuna_trace in Hf. intros H.
    assert (tr' = tr1) as -> by (by destruct o1; injection H).
    destruct Hf as [-> | ->].
    + exists []. split; [by rewrite app_nil_r | by left].
    + eexists. split; [done |]. right. by exists app_id, app_key.
  - intros [= <- <-]. exists []. split; [by rewrite app_nil_r | by left].
Qed.

(** X4: a run of [extract_skills] makes at most one HTTP request, to the
    search URL of the title with a timeout of 10 and only when credentials
    are set, then at most one model call, on the space-joined corpus with
    the fixed arguments and only when the corpus is non-empty and a model is
    loaded; it makes no other external call. *)
Theorem extract_skills_external_calls w self job_title n tr :
  exists skills http model,
    extract_skills w self job_title n tr
      = (Return skills, (tr ++ http ++ model)%list) /\
    (http = [] \/
     exists app_id app_key,
       credentials w = Some (app_id, app_key) /\
       http = [HttpGet (adzuna_url job_title app_id app_key 10) 10]) /\
    (model = [] \/
     exists ds,
       fst (_fetch_job_descriptions w job_title tr) = Return ds /\
       ds <> [] /\ _kw_model self <> None /\
       model = [ModelCall (join " " ds) (keybert_args n)]).
Proof.
  rewrite extract_skills_run.
  destruct (fetch_job_descriptions_total w job_title tr) as (ds & tr1 & Hf).
  rewrite Hf.
  destruct (fetch_job_descriptions_request _ _ _ _ _ Hf) as (http & -> & Hh).
  destruct ds as [| d ds].
  { exists [], http, []. rewrite app_nil_r. auto. }
  rewrite extract_keywords_run.
  destruct (_kw_model self) as [m |] eqn:Hm.
  - eexists _, http, _. rewrite app_assoc. split; [done |].
    split; [done |]. right. by exists (d :: ds).
  - exists [], http, []. rewrite app_nil_r. auto.
Qed.

(** ** The live corpus is all or nothing *)

Lemma cleaned_raises w jobs acc :
  Exists (fun job =>
            ~ is_dict job \/
            (has_description job = true /\
             exists e, soup_get_text w (raw_description job) = Raise e))
         jobs ->
  exists e, cleaned w jobs acc = Raise e.
Proof.
  intros Hbad. revert acc.
  induction jobs as [| job jobs IH]; intros acc;
    [by apply Exists_nil in Hbad |].
  apply Exists_cons in Hbad. cbn [cleaned].
  unfold has_description, raw_description in Hbad.
  destruct (py_get job "description" (PStr "")) as [raw | e] eqn:Hg;
    [| by eauto].
  destruct (truthy raw) eqn:Ht.
  - destruct (soup_get_text w raw) as [text | e] eqn:Hs; [| by eauto].
    destruct Hbad as [[Hd | (_ & e & He)] | Hbad]; [| congruence | by auto].
    destruct job; try discriminate. by destruct Hd.
  - destruct Hbad as [[Hd | (Hh & _)] | Hbad]; [| congruence | by auto].
    destruct job; try discriminate. by destruct Hd.
Qed.

(** X5: when the primary source answers with results of which one is not an
    object, or has a description the stripper fails on, the whole live
    corpus is dropped, also the descriptions of the well-formed results: the
    corpus is the fallback entry of the title. *)
Theorem live_corpus_all_or_nothing w job_title jobs tr :
  live_results w job_title jobs ->
  Exists (fun job =>
            ~ is_dict job \/
            (has_description job = true /\
             exists e, soup_get_text w (raw_description job) = Raise e))
         jobs ->
  exists tr',
    _fetch_job_descriptions w job_title tr
      = (Return (mock_entry job_title), tr').
Proof.
  intros (app_id & app_key & r & data & Hc & Hi1 & Hi2 & Hr & Hs & Hj & Hg
          & Hne) Hbad.
  rewrite fetch_job_descriptions_run, Hc, fetch_from_adzuna_run, Hi1, Hi2.
  cbn zeta. rewrite Hr, Hs, Hj, Hg. cbn [py_iter].
  replace (truthy (PList jobs)) with true by by destruct jobs.
  destruct (cleaned_raises w jobs [] Hbad) as [e ->]. by eauto.
Qed.

Lemma live_corpus_all_or_nothing_witness :
  exists tr',
    _fetch_job_descriptions mixed_world "flutter developer" []
      = (Return (mock_entry "flutter developer"), tr').
Proof.
  apply (live_corpus_all_or_nothing mixed_world "flutter developer"
           [job_with "Dart"; PStr "n/a"; job_with "Git"] []).
  - exists "id", "key". eexists _, _. repeat split; try reflexivity.
    discriminate.
  - apply Exists_cons_tl, Exists_cons_hd. left. intros [].
Defined.

(** ** The route *)

Lemma route_accepted_run w request skill_service tr title :
  accepted request title ->
  extract_skills_route w request skill_service tr =
  match extract_skills w (default (__init__ w) skill_service)
                       (strip title) 10 tr with
  | (Raise e, tr') => (Raise e, Some (default (__init__ w) skill_service), tr')
  | (Return skills, tr') =>
      (Return (skills_body (strip title) skills, 200),
       Some (default (__init__ w) skill_service), tr')
  end.
Proof.
  intros (Hj & data & Hg & Ha & Hb). unfold extract_skills_route.
  rewrite Hj, Hg. cbn [negb py_get]. rewrite Ha. cbn [default id py_strip].
  rewrite strip_blank, Hb. by destruct skill_service.
Qed.

(** X6: a request that is not JSON, or whose JSON object has no
    [job_title] or one of whitespace only, is answered with status 400 and
    [success: false]; the service is not created and no external call is
    made. *)
Theorem route_rejects_before_service w request skill_service tr :
  is_json request = false \/
  (exists data,
      get_json request = Return (PDict data) /\
      (assoc "job_title" data = None \/
       exists title,
         assoc "job_title" data = Some (PStr title) /\
         all_space title = true)) ->
  exists message,
    extract_skills_route w request skill_service tr
      = (Return (PDict [("success", PBool false); ("error", PStr message)],
                 400),
         skill_service, tr).
Proof.
  unfold extract_skills_route.
  destruct (is_json request); cbn [negb]; [| by eauto].
  intros [? | (data & -> & Hb)]; [done |]. cbn [py_get].
  destruct Hb as [-> | (title & -> & Hb)]; cbn [default id py_strip].
  - by eauto.
  - rewrite strip_blank, Hb. by eauto.
Qed.

Lemma route_rejects_before_service_witness :
  exists message,
    extract_skills_route loaded_world (request_for (PStr "   ")) None []
      = (Return (PDict [("success", PBool false); ("error", PStr message)],
                 400),
         None, []).
Proof.
  apply (route_rejects_before_service loaded_world
           (request_for (PStr "   ")) None []).
  right. eexists. split; [reflexivity |]. right.
  exists "   ". split; reflexivity.
Defined.

(** X7: a JSON object whose [job_title] is a string that is not blank is
    answered with status 200: [success: true], the title trimmed, the
    skills that [extract_skills] returns for the trimmed title and
    [top_n = 10], and their number as [count]. The handler does not raise,
    and afterwards the service exists. *)
Theorem route_accepts w request skill_service tr title :
  accepted request title ->
  exists skills tr',
    extract_skills_route w request skill_service tr
      = (Return (PDict [("success", PBool true);
                        ("job_title", PStr (strip title));
                        ("skills", PList (map PStr skills));
                        ("count", PInt (Z.of_nat (length skills)))],
                 200),
         Some (default (__init__ w) skill_service), tr') /\
    extract_skills w (default (__init__ w) skill_service) (strip title) 10 tr
      = (Return skills, tr').
Proof.
  intros Ha. rewrite (route_accepted_run _ _ _ _ _ Ha).
  destruct (extract_skills_total w (default (__init__ w) skill_service)
              (strip title) 10 tr) as (skills & tr' & ->).
  by exists skills, tr'.
Qed.

Lemma route_accepts_witness :
  exists skills tr',
    extract_skills_route offline_world
      (request_for (PStr " Flutter Developer ")) (Some toy_service) []
      = (Return (PDict [("success", PBool true);
                        ("job_title", PStr (strip " Flutter Developer "));
                        ("skills", PList (map PStr skills));
                        ("count", PInt (Z.of_nat (length skills)))],
                 200),
         Some (default (__init__ offline_world) (Some toy_service)), tr') /\
    extract_skills offline_world
      (default (__init__ offline_world) (Some toy_service))
      (strip " Flutter Developer ") 10 [] = (Return skills, tr').
Proof.
  apply (route_accepts offline_world
           (request_for (PStr " Flutter Developer ")) (Some toy_service) []
           " Flutter Developer ").
  split; [reflexivity |]. eexists. repeat split; reflexivity.
Defined.

(** X8: the route does not check types. A JSON body that is not an object,
    or a [job_title] that is not a string, makes the handler raise
    [AttributeError] instead of answering 400; the service is not created
    and no external call is made. *)
Theorem route_raises_on_mistyped_body w request skill_service tr data :
  is_json request = true ->
  get_json request = Return data ->
  (~ is_dict data \/
   exists d value,
     data = PDict d /\ assoc "job_title" d = Some value /\
     forall s, value <> PStr s) ->
  extract_skills_route w request skill_service tr
    = (Raise AttributeError, skill_service, tr).
Proof.
  intros Hj Hg Hbad. unfold extract_skills_route. rewrite Hj, Hg.
  cbn [negb].
  destruct Hbad as [Hd | (d & value & -> & Ha & Hv)].
  - destruct data; try done; by destruct Hd.
  - cbn [py_get]. rewrite Ha. cbn [default id].
    destruct value; try done; by destruct (Hv s).
Qed.

Lemma route_raises_on_mistyped_body_witness :
  extract_skills_route offline_world (request_for (PInt 5)) None []
    = (Raise AttributeError, None, []).
Proof.
  apply (route_raises_on_mistyped_body offline_world (request_for (PInt 5))
           None [] (PDict [("job_title", PInt 5)])).
  - reflexivity.
  - reflexivity.
  - right. exists [("job_title", PInt 5)], (PInt 5).
    split; [reflexivity |]. split; [reflexivity | discriminate].
Defined.

(** X9: a model that fails to load at the first accepted request stays
    unavailable. That request and every later accepted request, in whatever
    environment, are answered with status 200, no skills and count 0; the
    load is not tried again. *)
Theorem failed_load_is_permanent w e request title tr w' request' title' tr' :
  load_keybert w = Raise e ->
  accepted request title ->
  accepted request' title' ->
  exists service tr1 tr2,
    extract_skills_route w request None tr
      = (Return (skills_body (strip title) [], 200), Some service, tr1) /\
    _kw_model service = None /\
    extract_skills_route w' request' (Some service) tr'
      = (Return (skills_body (strip title') [], 200), Some service, tr2).
Proof.
  intros Hl Ha Ha'. pose proof (init_failure w e Hl) as Hm.
  assert (forall w0 t tr0,
             exists tr0',
               extract_skills w0 (__init__ w) t 10 tr0 = (Return [], tr0'))
    as Hempty.
  { intros w0 t tr0. rewrite extract_skills_run.
    destruct (fetch_job_descriptions_total w0 t tr0) as (ds & tr3 & ->).
    destruct ds; [by eauto |].
    rewrite extract_keywords_run, Hm. by eauto. }
  destruct (Hempty w (strip title) tr) as [tr1 H1].
  destruct (Hempty w' (strip title') tr') as [tr2 H2].
  exists (__init__ w), tr1, tr2.
  rewrite (route_accepted_run _ _ _ _ _ Ha).
  rewrite (route_accepted_run _ _ _ _ _ Ha'). cbn [default id].
  by rewrite H1, H2.
Qed.

Lemma failed_load_is_permanent_witness :
  exists service tr1 tr2,
    extract_skills_route offline_world
      (request_for (PStr "Flutter Developer")) None []
      = (Return (skills_body (strip "Flutter Developer") [], 200),
         Some service, tr1) /\
    _kw_model service = None /\
    extract_skills_route loaded_world
      (request_for (PStr "Data Scientist")) (Some service) []
      = (Return (skills_body (strip "Data Scientist") [], 200),
         Some service, tr2).
Proof.
  apply (failed_load_is_permanent offline_world ImportError
           (request_for (PStr "Flutter Developer")) "Flutter Developer" []
           loaded_world (request_for (PStr "Data Scientist"))
           "Data Scientist" []).
  - reflexivity.
  - split; [reflexivity |]. eexists. repeat split; reflexivity.
  - split; [reflexivity |]. eexists. repeat split; reflexivity.
Defined.

(** X10: the service is a singleton. A request never replaces an existing
    service; a service is created only by an accepted request that finds
    none, and then it is the one constructed in the environment of that
    request. *)
Theorem route_creates_the_service_once w request skill_service tr :
  snd (fst (extract_skills_route w request skill_service tr)) = skill_service
  \/ (skill_service = None /\
      snd (fst (extract_skills_route w request skill_service tr))
        = Some (__init__ w) /\
      exists title, accepted request title).
Proof.
  unfold extract_skills_route.
  destruct (is_json request) eqn:Hj; cbn [negb]; [| by left].
  destruct (get_json request) as [data | e] eqn:Hg; [| by left].
  destruct data as [| | | | | | d]; cbn [py_get]; try by left.
  destruct (assoc "job_title" d) as [value |] eqn:Ha; cbn [default id];
    [| by left].
  destruct value as [| | | | title | |]; cbn [py_strip]; try by left.
  rewrite strip_blank. destruct (all_space title) eqn:Hb; [by left |].
  destruct skill_service as [service |]; cbn [get_skill_service].
  - left. by destruct (extract_skills w service (strip title) 10 tr) as [[] ?].
  - right. split; [done |]. split.
    + by destruct (extract_skills w (__init__ w) (strip title) 10 tr) as [[] ?].
    + exists title. split; [done |]. by exists d.
Qed.
